(** * ADS-B SBS feed ingestion ([routes/adsb.py]): a shallow embedding

    The development follows the source file top to bottom:

    - [PyStr]    the Python string and number primitives the parser calls
                 ([str.split], [str.strip], [str.upper], [float], [int]);
    - [Sbs]      the body of the line loop of [parse_sbs_stream]: decoding of
                 one SBS line, merge into the aircraft registry, batch publish;
    - [Reader]   the two nested [while adsb_using_service] loops of
                 [parse_sbs_stream] as a step function over socket outcomes;
    - [Session]  [start_adsb] and [stop_adsb];
    - [Fanout]   the shared queue drained by the [stream_adsb] generators;
    - [Race]     [stop_adsb] run beside the reader thread on the shared
                 globals.

    Text is ASCII, the alphabet of the SBS protocol: a [string] is the
    sequence of characters of a Python [str], and every character outside
    the ASCII range is treated as an ordinary symbol (neither white space,
    nor a letter with a case, nor a digit).  Python floats are IEEE 754
    binary64 values, represented by [spec_float] at precision 53 and
    maximal exponent 1024. *)

From Stdlib Require Import ZArith Ascii String SpecFloat.
From stdpp Require Import gmap strings list.

Local Open Scope Z_scope.

(* ===================================================================== *)
(** ** Python primitives on strings and numbers                          *)
(* ===================================================================== *)

Module PyStr.

Definition code (c : ascii) : Z := Z.of_N (N_of_ascii c).

(** [str.isspace] on ASCII: TAB, LF, VT, FF, CR, FS, GS, RS, US, SPACE. *)
Definition is_space (c : ascii) : bool :=
  let n := code c in
  ((9 <=? n) && (n <=? 13)) || ((28 <=? n) && (n <=? 32)).

Definition is_digit (c : ascii) : bool :=
  let n := code c in (48 <=? n) && (n <=? 57).

Definition digit_val (c : ascii) : Z := code c - 48.

Definition upper_char (c : ascii) : ascii :=
  let n := code c in
  if (97 <=? n) && (n <=? 122) then ascii_of_N (Z.to_N (n - 32)) else c.

Definition lower_char (c : ascii) : ascii :=
  let n := code c in
  if (65 <=? n) && (n <=? 90) then ascii_of_N (Z.to_N (n + 32)) else c.

(** [s.upper()] *)
Fixpoint upper (s : string) : string :=
  match s with
  | EmptyString => EmptyString
  | String c s' => String (upper_char c) (upper s')
  end.

(** The white space of C, which [float] skips around an ASCII literal:
    TAB, LF, VT, FF, CR, SPACE. *)
Definition is_c_space (c : ascii) : bool :=
  let n := code c in
  ((9 <=? n) && (n <=? 13)) || (n =? 32).

(** A string without its leading, trailing, leading and trailing
    characters of a class. *)
Fixpoint lstrip_of (p : ascii → bool) (s : string) : string :=
  match s with
  | EmptyString => EmptyString
  | String c s' => if p c then lstrip_of p s' else s
  end.

Fixpoint rstrip_of (p : ascii → bool) (s : string) : string :=
  match s with
  | EmptyString => EmptyString
  | String c s' =>
      match rstrip_of p s' with
      | EmptyString => if p c then EmptyString else String c EmptyString
      | t => String c t
      end
  end.

Definition strip_of (p : ascii → bool) (s : string) : string :=
  rstrip_of p (lstrip_of p s).

(** [s.strip()] *)
Definition strip (s : string) : string := strip_of is_space s.

(** [s.split(sep)] for a one-character separator: never the empty list. *)
Fixpoint split (sep : ascii) (s : string) : list string :=
  match s with
  | EmptyString => [EmptyString]
  | String c s' =>
      if Ascii.eqb c sep then EmptyString :: split sep s'
      else match split sep s' with
           | [] => [String c EmptyString]
           | p :: ps => String c p :: ps
           end
  end.

(** [sep in s] and [s.split(sep, 1)] when it holds: the text before the
    first separator and the text after it. *)
Fixpoint split1 (sep : ascii) (s : string) : option (string * string) :=
  match s with
  | EmptyString => None
  | String c s' =>
      if Ascii.eqb c sep then Some (EmptyString, s')
      else match split1 sep s' with
           | Some (l, r) => Some (String c l, r)
           | None => None
           end
  end.

(** Truth value of a string: [if s:]. *)
Definition truthy (s : string) : bool :=
  match s with EmptyString => false | _ => true end.

(** [parts[i]]; every use in the source is guarded by a length test. *)
Definition item (parts : list string) (i : nat) : string :=
  nth i parts EmptyString.

End PyStr.

(** Exceptions the line loop can meet. *)
Inductive exn : Type := ValueError | OverflowError.

Module PyNum.
Import PyStr.
Definition prec : Z := 53.
Definition emax : Z := 1024.

(** PEP 515: an underscore is dropped when it stands between two digits;
    any other underscore makes the literal invalid. *)
Fixpoint drop_underscores (prev : ascii) (s : string) : option string :=
  match s with
  | EmptyString => if Ascii.eqb prev "_"%char then None else Some EmptyString
  | String c s' =>
      if Ascii.eqb c "_"%char then
        if is_digit prev then drop_underscores c s' else None
      else if Ascii.eqb prev "_"%char && negb (is_digit c) then None
      else option_map (String c) (drop_underscores c s')
  end.

(** Longest prefix of decimal digits: its value, its length, the rest. *)
Fixpoint digits (acc : Z) (n : Z) (s : string) : Z * Z * string :=
  match s with
  | String c s' =>
      if is_digit c then digits (10 * acc + digit_val c) (n + 1) s'
      else (acc, n, s)
  | EmptyString => (acc, n, s)
  end.

(** Case-insensitive prefix match against a lower-case word. *)
Fixpoint match_word (w s : string) : option string :=
  match w, s with
  | EmptyString, _ => Some s
  | String a w', String c s' =>
      if Ascii.eqb (lower_char c) a then match_word w' s' else None
  | String _ _, EmptyString => None
  end.

Definition sign_of (s : string) : bool * string :=
  match s with
  | String "-"%char s' => (true, s')
  | String "+"%char s' => (false, s')
  | _ => (false, s)
  end.

(** The binary64 value nearest to [(-1)^neg * m * 10^e10] (ties to even);
    for a negative [e10] the quotient is computed with enough bits and a
    sticky bit, then rounded once. *)
Definition of_decimal (neg : bool) (m e10 : Z) : spec_float :=
  if m =? 0 then S754_zero neg
  else if 0 <=? e10 then
    binary_normalize prec emax (cond_Zopp neg (m * 10 ^ e10)) 0 false
  else
    let d := 10 ^ (- e10) in
    let k := Z.max 0 (56 + Z.log2 d - Z.log2 m) in
    let q := (m * 2 ^ k) / d in
    let r := (m * 2 ^ k) mod d in
    let m' := 2 * q + (if r =? 0 then 0 else 1) in
    binary_normalize prec emax (cond_Zopp neg m') (- k - 1) false.

(** The optional exponent of a decimal literal: [e], a sign, digits.  An
    [e] that no digit follows is not part of the number. *)
Definition exponent (s : string) : Z * string :=
  match s with
  | String c s' =>
      if Ascii.eqb (lower_char c) "e"%char then
        let '(neg, s1) := sign_of s' in
        let '(v, n, rest) := digits 0 0 s1 in
        if n =? 0 then (0, s) else (cond_Zopp neg v, rest)
      else (0, s)
  | EmptyString => (0, s)
  end.

(** The number at the head of [s] and the text left after it. *)
Definition strtod (s : string) : option (spec_float * string) :=
  let '(neg, s0) := sign_of s in
  let '(ip, ni, s1) := digits 0 0 s0 in
  let '(m, nf, s2) :=
    match s1 with
    | String "."%char t => digits ip 0 t
    | _ => (ip, 0, s1)
    end in
  if (ni + nf =? 0) then
    match match_word "inf" s0 with
    | Some t =>
        match match_word "inity" t with
        | Some t' => Some (S754_infinity neg, t')
        | None => Some (S754_infinity neg, t)
        end
    | None =>
        match match_word "nan" s0 with
        | Some t => Some (S754_nan, t)
        | None => None
        end
    end
  else
    let '(e, s3) := exponent s2 in
    Some (of_decimal neg m (e - nf), s3).

(** [float(s)] for a string [s]: underscores between digits are dropped,
    surrounding white space is skipped, and the whole of the rest must be
    one literal. *)
Definition py_float (s : string) : exn + spec_float :=
  match drop_underscores "000"%char s with
  | None => inl ValueError
  | Some t =>
      match strtod (strip_of is_c_space t) with
      | Some (x, EmptyString) => inr x
      | _ => inl ValueError
      end
  end.

(** [int(x)] for a float [x]: truncation towards zero. *)
Definition py_int (x : spec_float) : exn + Z :=
  match x with
  | S754_zero _ => inr 0
  | S754_infinity _ => inl OverflowError
  | S754_nan => inl ValueError
  | S754_finite neg m e => inr (cond_Zopp neg (Z.shiftl (Zpos m) e))
  end.

(** [x - y] and [x >= y] on floats. *)
Definition fsub (x y : spec_float) : spec_float := SFsub prec emax x y.
Definition fge (x y : spec_float) : bool := SFleb y x.

Definition one : spec_float := S754_finite false 4503599627370496 (-52).

(** [x] is a normal binary64 number at most half a unit in the last place
    away from the fraction [num / den]. *)
Definition nearest (x : spec_float) (num den : Z) : Prop :=
  match x with
  | S754_finite neg m e =>
      Z.log2 (Zpos m) = 52 ∧ -1074 <= e
      ∧ 2 * Z.abs (den * cond_Zopp neg (Zpos m) * 2 ^ (e + 1074) - num * 2 ^ 1074)
        <= den * 2 ^ (e + 1074)
  | _ => False
  end.

End PyNum.

(* ===================================================================== *)
(** ** The line loop of [parse_sbs_stream]                               *)
(* ===================================================================== *)

(** Values stored in an aircraft dict: [str], [int], [float]. *)
Inductive pyval : Type :=
| VStr (s : string)
| VInt (z : Z)
| VFloat (x : spec_float).

(** A value is empty when it is the empty string. *)
Definition nonempty (v : pyval) : Prop :=
  match v with VStr s => s ≠ EmptyString | _ => True end.

Module Sbs.
Import PyStr PyNum.
Local Open Scope string_scope.

(** An aircraft dict maps field names to values; [app_module.adsb_aircraft]
    maps identifiers to aircraft dicts. *)
Abbreviation aircraft := (gmap string pyval).
Abbreviation registry := (gmap string (gmap string pyval)).

(** Statements that mutate the dict bound to [aircraft] and may raise: the
    mutations made before an exception stay. *)
Definition M (A : Type) : Type := aircraft → (exn + A) * aircraft.

#[export] Instance M_ret : MRet M := λ A a d, (inr a, d).
#[export] Instance M_bind : MBind M := λ A B k m d,
  match m d with
  | (inr a, d') => k a d'
  | (inl e, d') => (inl e, d')
  end.

(** The value or exception of an expression that does not touch the dict. *)
Definition eval {A} (r : exn + A) : M A := λ d, (r, d).

(** [aircraft[k] = v] *)
Definition setitem (k : string) (v : pyval) : M unit :=
  λ d, (inr tt, <[k := v]> d).

(** [try: body except (ValueError, TypeError): pass]; no expression of the
    loop raises [TypeError]. *)
Definition try_except_ValueError (body : M unit) : M unit := λ d,
  match body d with
  | (inl ValueError, d') => (inr tt, d')
  | r => r
  end.

(** [if c: body] *)
Definition when (c : bool) (body : M unit) : M unit :=
  if c then body else mret tt.

(** [int(float(s))] *)
Definition int_float (s : string) : exn + Z :=
  match py_float s with
  | inr x => py_int x
  | inl e => inl e
  end.

(** [if parts[i]: try: aircraft[k] = int(float(parts[i])) except ...] *)
Definition set_int (k : string) (s : string) : M unit :=
  when (truthy s)
    (try_except_ValueError (v ← eval (int_float s); setitem k (VInt v))).

(** Lines 83-126: the branch on the message type. *)
Definition apply_fields (msg_type : string) (parts : list string) : M unit :=
  let n := Z.of_nat (length parts) in
  if String.eqb msg_type "1" && (10 <? n)%Z then
    let callsign := strip (item parts 10) in
    when (truthy callsign) (setitem "callsign" (VStr callsign))
  else if String.eqb msg_type "3" && (15 <? n)%Z then
    set_int "alt" (item parts 11);;
    when (truthy (item parts 14) && truthy (item parts 15))
      (try_except_ValueError
         (lat ← eval (py_float (item parts 14));
          setitem "lat" (VFloat lat);;
          lon ← eval (py_float (item parts 15));
          setitem "lon" (VFloat lon)))
  else if String.eqb msg_type "4" && (13 <? n)%Z then
    set_int "speed" (item parts 12);;
    set_int "heading" (item parts 13)
  else if String.eqb msg_type "5" && (11 <? n)%Z then
    when (truthy (item parts 10))
      (let callsign := strip (item parts 10) in
       when (truthy callsign) (setitem "callsign" (VStr callsign)));;
    set_int "alt" (item parts 11)
  else if String.eqb msg_type "6" && (17 <? n)%Z then
    when (truthy (item parts 17)) (setitem "squawk" (VStr (item parts 17)))
  else mret tt.

(** What the line loop reads and writes: the two globals of [app_module]
    and the locals [last_update] and [pending_updates] of a connection. *)
Record state : Type := State {
  adsb_aircraft : gmap string (gmap string pyval);
  adsb_queue : list (gmap string pyval);
  last_update : spec_float;
  pending_updates : gset string
}.

(** [{'type': 'aircraft', **d}]: a key of [d] wins over the literal one. *)
Definition event_of (d : aircraft) : gmap string pyval :=
  d ∪ {[ "type" := VStr "aircraft" ]}.

(** Lines 133-138.  A Python set is iterated in an order the language does
    not fix; [elements] stands for it. *)
Definition snapshots (reg : registry) (ids : list string) : list (gmap string pyval) :=
  omap (λ i, event_of <$> reg !! i) ids.

(** Lines 131-140, [now] being the value [time.time()] returned. *)
Definition publish_tick (now : spec_float) (st : state) : state :=
  if fge (fsub now (last_update st)) one then
    {| adsb_aircraft := adsb_aircraft st;
       adsb_queue := adsb_queue st
                     ++ snapshots (adsb_aircraft st) (elements (pending_updates st));
       last_update := now;
       pending_updates := ∅ |}
  else st.

(** Lines 72-79: the fields, the message type and the identifier of a line
    that is not dropped. *)
Definition accept (line : string) : option (list string * string * string) :=
  let parts := split ","%char line in
  if (Z.of_nat (length parts) <? 11)%Z || negb (String.eqb (item parts 0) "MSG")
  then None
  else
    let icao := upper (item parts 4) in
    if truthy icao then Some (parts, item parts 1, icao) else None.

(** Lines 68-140: one turn of [while '\n' in buffer] on the text [raw]
    taken from the buffer.  The dict bound to [aircraft] is the one of the
    registry when the identifier is known, so what [apply_fields] did
    before raising is seen in the registry. *)
Definition process_line (now : spec_float) (raw : string) (st : state)
  : (exn + unit) * state :=
  let line := strip raw in
  if negb (truthy line) then (inr tt, st)
  else match accept line with
  | None => (inr tt, st)
  | Some (parts, msg_type, icao) =>
      let known := adsb_aircraft st !! icao in
      let d := default {[ "icao" := VStr icao ]} known in
      match apply_fields msg_type parts d with
      | (inr _, d') =>
          (inr tt,
           publish_tick now
             {| adsb_aircraft := <[icao := d']> (adsb_aircraft st);
                adsb_queue := adsb_queue st;
                last_update := last_update st;
                pending_updates := pending_updates st ∪ {[ icao ]} |})
      | (inl e, d') =>
          (inl e,
           {| adsb_aircraft :=
                match known with
                | Some _ => <[icao := d']> (adsb_aircraft st)
                | None => adsb_aircraft st
                end;
              adsb_queue := adsb_queue st;
              last_update := last_update st;
              pending_updates := pending_updates st |})
      end
  end.

(** The column a field is read from, by message type (lines 83-126). *)
Definition column (msg_type field : string) : option nat :=
  if String.eqb msg_type "1" then
    if String.eqb field "callsign" then Some 10%nat else None
  else if String.eqb msg_type "3" then
    if String.eqb field "alt" then Some 11%nat
    else if String.eqb field "lat" then Some 14%nat
    else if String.eqb field "lon" then Some 15%nat else None
  else if String.eqb msg_type "4" then
    if String.eqb field "speed" then Some 12%nat
    else if String.eqb field "heading" then Some 13%nat else None
  else if String.eqb msg_type "5" then
    if String.eqb field "callsign" then Some 10%nat
    else if String.eqb field "alt" then Some 11%nat else None
  else if String.eqb msg_type "6" then
    if String.eqb field "squawk" then Some 17%nat else None
  else None.

(** The text a message carries for a field: empty when the message type
    has no such field or the line is too short. *)
Definition incoming (msg_type : string) (parts : list string) (field : string) : string :=
  match column msg_type field with
  | Some i => item parts i
  | None => EmptyString
  end.

(** The fields that hold numbers. *)
Definition numeric (field : string) : bool :=
  bool_decide (field ∈ ["alt"; "lat"; "lon"; "speed"; "heading"]).

(** The columns a message type passes through [int(float(...))]. *)
Definition int_columns (msg_type : string) : list nat :=
  if String.eqb msg_type "3" then [11%nat]
  else if String.eqb msg_type "4" then [12%nat; 13%nat]
  else if String.eqb msg_type "5" then [11%nat]
  else [].

Definition is_infinity (r : exn + spec_float) : bool :=
  match r with inr (S754_infinity _) => true | _ => false end.

(** Some integer column of the line reads as an infinite float. *)
Definition overflows (msg_type : string) (parts : list string) : bool :=
  existsb (λ i, is_infinity (py_float (item parts i))) (int_columns msg_type).

(** The message has text for the field, and text that [float] accepts
    when the field holds a number. *)
Definition carries (msg_type : string) (parts : list string) (field : string) : Prop :=
  truthy (incoming msg_type parts field) = true
  ∧ (numeric field = true → ∃ x, py_float (incoming msg_type parts field) = inr x).

(** [d'] differs from [d] only at allowed fields, and there by a value
    that is not empty. *)
Definition changes_only (allowed : string → Prop) (d d' : aircraft) : Prop :=
  ∀ field, d' !! field = d !! field
           ∨ ∃ v, d' !! field = Some v ∧ nonempty v ∧ allowed field.

Definition monotone {A} (allowed : string → Prop) (m : M A) : Prop :=
  ∀ d, changes_only allowed d (m d).2.

(** The statement runs to its end whatever the dict. *)
Definition never_raises (m : M unit) : Prop := ∀ d, (m d).1 = inr tt.

(** The state a line that was not dropped leaves when the tick is due to
    be checked (line 130). *)
Definition merged (icao : string) (d' : aircraft) (st : state) : state :=
  {| adsb_aircraft := <[icao := d']> (adsb_aircraft st);
     adsb_queue := adsb_queue st;
     last_update := last_update st;
     pending_updates := pending_updates st ∪ {[ icao ]} |}.

(** The dict bound to [aircraft] on line 81. *)
Definition bound (icao : string) (st : state) : aircraft :=
  default {[ "icao" := VStr icao ]} (adsb_aircraft st !! icao).

(** An empty registry, an empty queue, no pending update, the clock at 0. *)
Definition fresh : state :=
  {| adsb_aircraft := ∅; adsb_queue := []; last_update := S754_zero false;
     pending_updates := ∅ |}.

End Sbs.

(* ===================================================================== *)
(** ** The connection loops of [parse_sbs_stream]                        *)
(* ===================================================================== *)

Module Reader.
Import PyStr PyNum.

(** [start_adsb] passes the address ['localhost:30003'], on which lines
    43-44 do not raise; the thread starts at the test of the outer loop. *)

(** What [sock.recv(4096).decode('utf-8', errors='ignore')] does:
    returns text (the empty text when the peer closed), raises
    [socket.timeout], or raises another socket error. *)
Inductive recv_result : Type :=
| RecvData (data : string)
| RecvTimeout
| RecvError.

(** What the loops do to the outside. *)
Inductive action : Type :=
| Connect              (* line 52, reached and successful *)
| ConnectFailed        (* lines 50-52 raised *)
| Close                (* line 145 *)
| Warning              (* line 147 *)
| Sleep (seconds : Z)  (* line 148 *)
| LogStopped.          (* line 150 *)

(** Where control stands: at the test of the outer [while] (line 48), at
    the test of the inner [while] (line 59), or after the loops. *)
Inductive pc : Type := AtOuter | AtInner | Returned.

(** What the environment answers during one turn of a loop: the value of
    [adsb_using_service] read by the test, whether the connection is
    established, the clock read on line 56, the outcome of [recv], and the
    clock read on line 131 for the k-th line of the received text. *)
Record obs : Type := Obs {
  flag : bool;
  connect_ok : bool;
  connect_time : spec_float;
  rx : recv_result;
  line_time : nat → spec_float
}.

Record reader : Type := Reader {
  at_pc : pc;
  world : Sbs.state;
  buffer : string;
  trace : list action
}.

(** The turns of [while '\n' in buffer] over the complete lines, in order,
    until one raises. *)
Fixpoint run_lines (clock : nat → spec_float) (k : nat) (lines : list string)
  (st : Sbs.state) : (exn + unit) * Sbs.state :=
  match lines with
  | [] => (inr tt, st)
  | l :: rest =>
      match Sbs.process_line (clock k) l st with
      | (inr _, st') => run_lines clock (S k) rest st'
      | (inl e, st') => (inl e, st')
      end
  end.

(** Lines 66-140: every piece of [buffer.split('\n')] but the last is a
    complete line; the last one is what stays in the buffer. *)
Definition drain (clock : nat → spec_float) (buf : string) (st : Sbs.state)
  : (exn + string) * Sbs.state :=
  let pieces := split "010"%char buf in
  match run_lines clock 0 (removelast pieces) st with
  | (inr _, st') => (inr (List.last pieces EmptyString), st')
  | (inl e, st') => (inl e, st')
  end.

(** What line 67 has left in [buffer] when the line loop stops: the text
    behind the line that raised (the pieces behind it, joined by line feeds
    again), or the unfinished last piece when no line raised. *)
Fixpoint remainder (clock : nat → spec_float) (k : nat) (pieces : list string)
  (st : Sbs.state) : string :=
  match pieces with
  | [] => EmptyString
  | l :: more =>
      match more with
      | [] => l
      | _ :: _ =>
          match Sbs.process_line (clock k) l st with
          | (inr _, st') => remainder clock (S k) more st'
          | (inl _, _) => String.concat (String "010"%char EmptyString) more
          end
      end
  end.

Definition log (a : list action) (r : reader) : list action := trace r ++ a.

(** One turn of the loop whose test control stands at. *)
Definition step (o : obs) (r : reader) : reader :=
  match at_pc r with
  | Returned => r
  | AtOuter =>
      if negb (flag o) then
        {| at_pc := Returned; world := world r; buffer := buffer r;
           trace := log [LogStopped] r |}
      else if connect_ok o then
        {| at_pc := AtInner;
           world := {| Sbs.adsb_aircraft := Sbs.adsb_aircraft (world r);
                       Sbs.adsb_queue := Sbs.adsb_queue (world r);
                       Sbs.last_update := connect_time o;
                       Sbs.pending_updates := ∅ |};
           buffer := EmptyString;
           trace := log [Connect] r |}
      else
        {| at_pc := AtOuter; world := world r; buffer := buffer r;
           trace := log [ConnectFailed; Warning; Sleep 2] r |}
  | AtInner =>
      if negb (flag o) then
        {| at_pc := AtOuter; world := world r; buffer := buffer r;
           trace := log [Close] r |}
      else
        match rx o with
        | RecvTimeout => r
        | RecvError =>
            {| at_pc := AtOuter; world := world r; buffer := buffer r;
               trace := log [Warning; Sleep 2] r |}
        | RecvData data =>
            if negb (truthy data) then
              {| at_pc := AtOuter; world := world r; buffer := buffer r;
                 trace := log [Close] r |}
            else
              match drain (line_time o) (buffer r +:+ data) (world r) with
              | (inr rest, st') =>
                  {| at_pc := AtInner; world := st'; buffer := rest;
                     trace := trace r |}
              | (inl _, st') =>
                  {| at_pc := AtOuter; world := st';
                     buffer := remainder (line_time o) 0
                                 (split "010"%char (buffer r +:+ data)) (world r);
                     trace := log [Warning; Sleep 2] r |}
              end
        end
  end.

(** The thread run against a script of answers. *)
Definition run (script : list obs) (r : reader) : reader :=
  fold_left (λ r o, step o r) script r.

End Reader.

(* ===================================================================== *)
(** ** [start_adsb] and [stop_adsb]                                      *)
(* ===================================================================== *)

Module Session.

(** A [subprocess.Popen] handle. *)
Inductive process : Type := Process (pid : nat).

Record session : Type := Session {
  adsb_process : option process;
  adsb_using_service : bool;
  adsb_aircraft : gmap string (gmap string pyval);
  readers : nat    (* threads started on [parse_sbs_stream] so far *)
}.

(** The JSON body of a response. *)
Record response : Type := Response { status : string; message : option string }.

(** What the environment answers during one call of [start_adsb]. *)
Record start_env : Type := StartEnv {
  old_alive : bool;                      (* line 168: [poll() is None] *)
  which : string → option string;        (* [shutil.which] *)
  popen : list string → string + process;(* line 185: raises or spawns *)
  new_alive : bool;                      (* line 193: [poll() is None] *)
  thread_start : option string;          (* line 198: raises or not *)
  gain : string;
  device : string                        (* [str(device)] *)
}.

(** [a or b] on the results of [shutil.which]. *)
Definition or_else (a b : option string) : option string :=
  match a with Some p => Some p | None => b end.

(** Line 177. *)
Definition dump1090_path (env : start_env) : option string :=
  or_else (which env "dump1090")
    (or_else (which env "dump1090-mutability") (which env "dump1090-fa")).

(** Line 182. *)
Definition cmd (env : start_env) (path : string) : list string :=
  [path; "--net"; "--gain"; gain env; "--device-index"; device env; "--quiet"].

(** Lines 168 and 170: the decoder runs or the flag is set. *)
Definition already_running (env : start_env) (s : session) : bool :=
  match adsb_process s with Some _ => old_alive env | None => false end
  || adsb_using_service s.

Definition start_adsb (env : start_env) (s : session) : response * session :=
  if match adsb_process s with Some _ => old_alive env | None => false end then
    (Response "already_running" (Some "ADS-B already running"), s)
  else if adsb_using_service s then
    (Response "already_running" (Some "ADS-B already running (using service)"), s)
  else
    match dump1090_path env with
    | None => (Response "error" (Some "dump1090 not found."), s)
    | Some path =>
        match popen env (cmd env path) with
        | inl e => (Response "error" (Some e), s)
        | inr p =>
            let s1 := {| adsb_process := Some p;
                         adsb_using_service := adsb_using_service s;
                         adsb_aircraft := adsb_aircraft s;
                         readers := readers s |} in
            if negb (new_alive env) then
              (Response "error" (Some "dump1090 failed to start."), s1)
            else
              let s2 := {| adsb_process := Some p;
                           adsb_using_service := true;
                           adsb_aircraft := adsb_aircraft s;
                           readers := readers s |} in
              match thread_start env with
              | Some e => (Response "error" (Some e), s2)
              | None =>
                  (Response "success" (Some "ADS-B tracking started"),
                   {| adsb_process := Some p;
                      adsb_using_service := true;
                      adsb_aircraft := adsb_aircraft s;
                      readers := S (readers s) |})
              end
        end
    end.

(** The decoder is not found, cannot be spawned, or has exited when it is
    polled three seconds after the spawn. *)
Definition decoder_fails (env : start_env) : bool :=
  match dump1090_path env with
  | None => true
  | Some path =>
      match popen env (cmd env path) with
      | inl _ => true
      | inr _ => negb (new_alive env)
      end
  end.

(** What [stop_adsb] does to the decoder process. *)
Inductive signal : Type := Terminate | Kill.

(** [wait_expired]: whether [wait(timeout=5)] raises [TimeoutExpired]. *)
Definition stop_adsb (wait_expired : bool) (s : session)
  : response * list signal * session :=
  (Response "stopped" None,
   match adsb_process s with
   | Some _ => if wait_expired then [Terminate; Kill] else [Terminate]
   | None => []
   end,
   {| adsb_process := None;
      adsb_using_service := false;
      adsb_aircraft := ∅;
      readers := readers s |}).

End Session.

(* ===================================================================== *)
(** ** The queue between the reader thread and [stream_adsb]             *)
(* ===================================================================== *)

Module Fanout.

(** What one turn of [generate] yields. *)
Inductive frame : Type :=
| Data (msg : gmap string pyval)
| Keepalive.

(** The calls made on [app_module.adsb_queue], in the order the queue
    serves them: [put] by the reader thread, [get(timeout=1)] by the
    generator of a subscriber.  A [get] served while the queue is empty is
    one whose wait ran out. *)
Inductive call : Type :=
| Put (msg : gmap string pyval)
| Get (subscriber : nat).

Record channel : Type := Channel {
  queue : list (gmap string pyval);
  yielded : list (nat * frame)   (* who was sent what, oldest first *)
}.

Definition serve (c : call) (ch : channel) : channel :=
  match c with
  | Put msg => {| queue := queue ch ++ [msg]; yielded := yielded ch |}
  | Get i =>
      match queue ch with
      | msg :: rest => {| queue := rest; yielded := yielded ch ++ [(i, Data msg)] |}
      | [] => {| queue := []; yielded := yielded ch ++ [(i, Keepalive)] |}
      end
  end.

Definition run (calls : list call) (ch : channel) : channel :=
  fold_left (λ ch c, serve c ch) calls ch.

(** The frames sent to one subscriber. *)
Definition received (i : nat) (ch : channel) : list frame :=
  omap (λ p, if decide (p.1 = i) then Some p.2 else None) (yielded ch).

(** The messages put, and the messages sent to anyone, oldest first. *)
Definition puts (calls : list call) : list (gmap string pyval) :=
  omap (λ c, match c with Put m => Some m | Get _ => None end) calls.

Definition sent (ch : channel) : list (gmap string pyval) :=
  omap (λ p, match p.2 with Data m => Some m | Keepalive => None end) (yielded ch).

End Fanout.

(* ===================================================================== *)
(** ** The request handlers and the reader thread side by side           *)
(* ===================================================================== *)

Module Race.
Import Reader Session.

(** The globals the handlers and the thread share, the thread, and the
    value of [adsb_using_service] the thread has read at a loop test and
    not yet acted on.  [app_module.adsb_aircraft] is looked up again at
    each use (lines 81, 128, 134, 137, 220): it is held once, in the
    globals, and a turn of the thread works on the dict bound to it when
    the turn runs. *)
Record program : Type := Program {
  globals : session;
  thread : reader;
  seen : option bool
}.

(** What happens next: the thread evaluates the test of the loop it
    stands at; the thread runs the rest of that turn on the value it read
    (the flag of [o] is not used); a handler runs [stop_adsb]. *)
Inductive event : Type :=
| Test
| Turn (o : obs)
| Stop (wait_expired : bool).

Definition with_flag (b : bool) (o : obs) : obs :=
  {| flag := b; connect_ok := connect_ok o; connect_time := connect_time o;
     rx := rx o; line_time := line_time o |}.

Definition with_aircraft (reg : gmap string (gmap string pyval)) (r : reader)
  : reader :=
  {| at_pc := at_pc r;
     world := {| Sbs.adsb_aircraft := reg;
                 Sbs.adsb_queue := Sbs.adsb_queue (world r);
                 Sbs.last_update := Sbs.last_update (world r);
                 Sbs.pending_updates := Sbs.pending_updates (world r) |};
     buffer := buffer r;
     trace := trace r |}.

Definition exec (e : event) (p : program) : program :=
  match e with
  | Test =>
      {| globals := globals p; thread := thread p;
         seen := Some (adsb_using_service (globals p)) |}
  | Turn o =>
      match seen p with
      | None => p
      | Some b =>
          let r := step (with_flag b o)
                     (with_aircraft (adsb_aircraft (globals p)) (thread p)) in
          {| globals := {| adsb_process := adsb_process (globals p);
                           adsb_using_service := adsb_using_service (globals p);
                           adsb_aircraft := Sbs.adsb_aircraft (world r);
                           readers := readers (globals p) |};
             thread := r;
             seen := None |}
      end
  | Stop wait_expired =>
      {| globals := (stop_adsb wait_expired (globals p)).2;
         thread := thread p;
         seen := seen p |}
  end.

Definition execs (es : list event) (p : program) : program :=
  fold_left (λ p e, exec e p) es p.

End Race.

(* ===================================================================== *)
(** ** Invariants of the registry and the queue; the tools probe         *)
(* ===================================================================== *)

Module Schema.
Import PyStr PyNum Sbs.

(** A string of white space only. *)
Fixpoint blank (s : string) : bool :=
  match s with
  | EmptyString => true
  | String c s' => is_space c && blank s'
  end.

(** The kind of value a field holds: what lines 81-126 assign to it. *)
Definition well_typed (field : string) (v : pyval) : Prop :=
  match v with
  | VStr s => field ∈ ["icao"; "callsign"; "squawk"] ∧ s ≠ EmptyString
  | VInt _ => field ∈ ["alt"; "speed"; "heading"]
  | VFloat _ => field ∈ ["lat"; "lon"]
  end.

(** A statement changes a field only by a value that satisfies [P]. *)
Definition writes {A} (P : string → pyval → Prop) (m : M A) : Prop :=
  ∀ d field, (m d).2 !! field = d !! field
             ∨ ∃ v, (m d).2 !! field = Some v ∧ P field v.

(** The record stored under [key] names it and holds well-typed fields. *)
Definition record_ok (key : string) (d : aircraft) : Prop :=
  d !! "icao" = Some (VStr key) ∧ ∀ field v, d !! field = Some v → well_typed field v.

(** Every key is a non-empty upper-case identifier and stores its record. *)
Definition registry_ok (reg : registry) : Prop :=
  ∀ key d, reg !! key = Some d →
    key ≠ EmptyString ∧ upper key = key ∧ record_ok key d.

(** An event of type aircraft that names an upper-case identifier. *)
Definition event_ok (ev : gmap string pyval) : Prop :=
  ev !! "type" = Some (VStr "aircraft")
  ∧ ∃ key, key ≠ EmptyString ∧ upper key = key ∧ ev !! "icao" = Some (VStr key).

(** The test of the [elif] chain that holds for the message type of the
    line (lines 83, 88, 101, 113, 124). *)
Definition selected (msg_type : string) (parts : list string) : bool :=
  let n := Z.of_nat (length parts) in
  (String.eqb msg_type "1" && (10 <? n)%Z)
  || (String.eqb msg_type "3" && (15 <? n)%Z)
  || (String.eqb msg_type "4" && (13 <? n)%Z)
  || (String.eqb msg_type "5" && (11 <? n)%Z)
  || (String.eqb msg_type "6" && (17 <? n)%Z).

Definition state_ok (st : state) : Prop :=
  registry_ok (adsb_aircraft st)
  ∧ Forall event_ok (adsb_queue st)
  ∧ pending_updates st ⊆ dom (adsb_aircraft st).

End Schema.

Module Loop.
Import PyStr Reader.

(** A text without a line feed. *)
Definition unbroken (s : string) : Prop :=
  ¬ In "010"%char (list_ascii_of_string s).

(** The complete lines of a buffer, the [k] in [line_time o k] of each
    being its rank among them. *)
Definition complete_lines (buf : string) : list string :=
  removelast (split "010"%char buf).

End Loop.

Module Tools.

(** The JSON object [check_adsb_tools] answers (lines 156-159). *)
Record tools : Type := { dump1090 : bool; rtl_adsb : bool }.

(** [shutil.which(name) is not None] *)
Definition available (which : string → option string) (name : string) : bool :=
  match which name with Some _ => true | None => false end.

Definition check_adsb_tools (which : string → option string) : tools :=
  {| dump1090 := available which "dump1090"
                 || available which "dump1090-mutability"
                 || available which "dump1090-fa";
     rtl_adsb := available which "rtl_adsb" |}.

End Tools.

Module Frames.
Import Fanout.

(** The messages among frames, oldest first. *)
Definition messages (l : list frame) : list (gmap string pyval) :=
  omap (λ f, match f with Data m => Some m | Keepalive => None end) l.

End Frames.

(* ===================================================================== *)
(** ** Properties of the line loop                                       *)
(* ===================================================================== *)

Module SbsFacts.
Import PyStr PyNum Sbs.

(** [buffer.split('\n', 1)] taken again and again yields the pieces of
    [buffer.split('\n')] one by one. *)
Lemma split1_split sep s :
  split sep s = match split1 sep s with
                | Some (l, r) => l :: split sep r
                | None => [s]
                end.
Proof.
  induction s as [|c s IH]; [done|]. cbn.
  destruct (Ascii.eqb c sep); [done|]. rewrite IH.
  by destruct (split1 sep s) as [[l r]|].
Qed.

(** Case analysis on the message type, in the order of the [elif] chain. *)
Ltac case_msg_type :=
  repeat match goal with
  | |- context [String.eqb ?a ?t] =>
      is_var a; destruct (String.eqb_spec a t) as [->|?]
  | |- context [String.eqb (String ?c ?r) ?t] =>
      let b := eval vm_compute in (String.eqb (String c r) t) in
      change (String.eqb (String c r) t) with b
  end;
  cbn [andb existsb];
  repeat match goal with
  | |- context [(?a <? ?b)%Z] => destruct (a <? b)%Z
  end.

Lemma changes_only_refl allowed d : changes_only allowed d d.
Proof. intros f. by left. Qed.

Lemma changes_only_trans allowed d1 d2 d3 :
  changes_only allowed d1 d2 → changes_only allowed d2 d3 →
  changes_only allowed d1 d3.
Proof.
  intros H12 H23 f. destruct (H23 f) as [E|(v & E & Hv & Ha)].
  - rewrite E. apply H12.
  - right. eauto.
Qed.

Lemma monotone_ret {A} allowed (a : A) : monotone allowed (mret a).
Proof. intros d. apply changes_only_refl. Qed.

Lemma monotone_eval {A} allowed (r : exn + A) : monotone allowed (eval r).
Proof. intros d. apply changes_only_refl. Qed.

Lemma monotone_setitem (allowed : string → Prop) k v :
  nonempty v → allowed k → monotone allowed (setitem k v).
Proof.
  intros Hv Hk d f. cbn. destruct (decide (k = f)) as [->|Hne].
  - right. exists v. by rewrite lookup_insert_eq.
  - left. by rewrite lookup_insert_ne.
Qed.

Lemma monotone_bind {A B} allowed (m : M A) (k : A → M B) :
  monotone allowed m → (∀ a, monotone allowed (k a)) →
  monotone allowed (m ≫= k).
Proof.
  intros Hm Hk d. unfold mbind, M_bind. specialize (Hm d).
  destruct (m d) as [[e|a] d1] eqn:E; cbn in *; [done|].
  eapply changes_only_trans; [exact Hm|]. apply Hk.
Qed.

Lemma monotone_try allowed body :
  monotone allowed body → monotone allowed (try_except_ValueError body).
Proof.
  intros Hb d. unfold try_except_ValueError. specialize (Hb d).
  destruct (body d) as [[[]|[]] d1]; exact Hb.
Qed.

Lemma monotone_when allowed c body :
  (c = true → monotone allowed body) → monotone allowed (when c body).
Proof.
  intros Hb. destruct c; cbn; [by apply Hb | apply monotone_ret].
Qed.

Lemma changes_only_weaken (P Q : string → Prop) d d' :
  (∀ field, P field → Q field) → changes_only P d d' → changes_only Q d d'.
Proof.
  intros HPQ H f. destruct (H f) as [E|(v & E & Hv & Hp)]; [by left|].
  right. exists v. auto.
Qed.

Lemma monotone_set_int (allowed : string → Prop) k s :
  (truthy s = true → ∀ x, py_float s = inr x → allowed k) →
  monotone allowed (set_int k s).
Proof.
  intros Hk. apply monotone_when. intros Hs. apply monotone_try.
  unfold int_float. destruct (py_float s) as [e|x] eqn:Ex.
  { intros d. apply changes_only_refl. }
  apply monotone_bind; [apply monotone_eval|].
  intros v. apply monotone_setitem; [exact I | by eapply Hk].
Qed.

Lemma strip_truthy s : truthy (strip s) = true → truthy s = true.
Proof. by destruct s. Qed.

Lemma truthy_nonempty s : truthy s = true → nonempty (VStr s).
Proof. by destruct s. Qed.

(** The branch on the message type writes a field only with a value that
    is not empty, and only when the message carries the field. *)
Lemma apply_fields_monotone msg_type parts :
  monotone (carries msg_type parts) (apply_fields msg_type parts).
Proof.
  unfold apply_fields. case_msg_type; try apply monotone_ret.
  - apply monotone_when. intros H.
    apply monotone_setitem; [by apply truthy_nonempty|].
    split; [by apply strip_truthy | done].
  - apply monotone_bind.
    { apply monotone_set_int. intros H x Hx. split; [done|]. by exists x. }
    intros _. apply monotone_when. intros [H14 H15]%andb_prop.
    apply monotone_try.
    destruct (py_float (item parts 14)) as [e|lat] eqn:Elat.
    { intros d. apply changes_only_refl. }
    apply monotone_bind; [apply monotone_eval|]. intros lat'.
    apply monotone_bind.
    { apply monotone_setitem; [done|]. split; [done|]. by exists lat. }
    intros _.
    destruct (py_float (item parts 15)) as [e|lon] eqn:Elon.
    { intros d. apply changes_only_refl. }
    apply monotone_bind; [apply monotone_eval|]. intros lon'.
    apply monotone_setitem; [done|]. split; [done|]. by exists lon.
  - apply monotone_bind; [|intros _];
      (apply monotone_set_int; intros H x Hx; split; [done|]; by exists x).
  - apply monotone_bind.
    + apply monotone_when. intros H10. apply monotone_when. intros H.
      apply monotone_setitem; [by apply truthy_nonempty | done].
    + intros _. apply monotone_set_int. intros H x Hx.
      split; [done|]. by exists x.
  - apply monotone_when. intros H.
    apply monotone_setitem; [by apply truthy_nonempty | done].
Qed.

(** The tick leaves the registry alone. *)
Lemma publish_tick_aircraft now st :
  adsb_aircraft (publish_tick now st) = adsb_aircraft st.
Proof. unfold publish_tick. by destruct (fge _ _). Qed.

(** The three ways through [process_line]. *)
Lemma process_line_dropped now raw st :
  truthy (strip raw) = false ∨ accept (strip raw) = None →
  process_line now raw st = (inr tt, st).
Proof.
  intros [H|H]; unfold process_line; rewrite H; [done|].
  by destruct (truthy (strip raw)).
Qed.

Lemma accept_truthy line x : accept line = Some x → truthy line = true.
Proof. destruct line; [by vm_compute | done]. Qed.

Lemma process_line_stored now raw st parts msg_type icao d' :
  accept (strip raw) = Some (parts, msg_type, icao) →
  apply_fields msg_type parts (bound icao st) = (inr tt, d') →
  process_line now raw st = (inr tt, publish_tick now (merged icao d' st)).
Proof.
  intros Ha Hf. unfold process_line, bound in *.
  rewrite (accept_truthy _ _ Ha), Ha. cbn. by rewrite Hf.
Qed.

Lemma process_line_raised now raw st parts msg_type icao e d' :
  accept (strip raw) = Some (parts, msg_type, icao) →
  apply_fields msg_type parts (bound icao st) = (inl e, d') →
  process_line now raw st =
    (inl e,
     {| adsb_aircraft :=
          match adsb_aircraft st !! icao with
          | Some _ => <[icao := d']> (adsb_aircraft st)
          | None => adsb_aircraft st
          end;
        adsb_queue := adsb_queue st;
        last_update := last_update st;
        pending_updates := pending_updates st |}).
Proof.
  intros Ha Hf. unfold process_line, bound in *.
  rewrite (accept_truthy _ _ Ha), Ha. cbn. by rewrite Hf.
Qed.

(** C1. Monotonic merge: whatever line is processed, an aircraft known to
    the registry stays known, and each field of its record either keeps
    its value or takes a new value that is not empty, the latter only when
    the line is a message for this aircraft whose column for that field is
    not empty.  A field the message lacks or leaves empty is therefore
    neither cleared nor changed. *)
Theorem merge_is_monotonic now raw st icao d :
  adsb_aircraft st !! icao = Some d →
  ∃ d', adsb_aircraft (process_line now raw st).2 !! icao = Some d' ∧
    ∀ field,
      d' !! field = d !! field
      ∨ ∃ v parts msg_type,
          d' !! field = Some v ∧ nonempty v
          ∧ accept (strip raw) = Some (parts, msg_type, icao)
          ∧ truthy (incoming msg_type parts field) = true.
Proof.
  intros Hd.
  destruct (accept (strip raw)) as [[[parts mt] id]|] eqn:Ha; cycle 1.
  { rewrite process_line_dropped by auto. exists d. split; [done|]. by left. }
  pose proof (changes_only_weaken _ (λ f, truthy (incoming mt parts f) = true) _ _
    (λ f (H : carries mt parts f), proj1 H)
    (apply_fields_monotone mt parts (bound id st))) as Hmono.
  destruct (apply_fields mt parts _) as [[e|[]] d1] eqn:Hf;
    unfold bound in Hmono; cbn in Hmono.
  - rewrite (process_line_raised _ _ _ _ _ _ _ _ Ha Hf). cbn.
    destruct (decide (id = icao)) as [->|Hne].
    + rewrite Hd in *. cbn in Hmono. rewrite lookup_insert_eq.
      exists d1. split; [done|]. intros f.
      destruct (Hmono f) as [E|(v & E & Hv & Hin)]; [by left|].
      right. by exists v, parts, mt.
    + exists d. split; [|by left].
      destruct (adsb_aircraft st !! id); [by rewrite lookup_insert_ne|done].
  - rewrite (process_line_stored _ _ _ _ _ _ _ Ha Hf). cbn.
    rewrite publish_tick_aircraft. cbn.
    destruct (decide (id = icao)) as [->|Hne].
    + rewrite Hd in *. cbn in Hmono. rewrite lookup_insert_eq.
      exists d1. split; [done|]. intros f.
      destruct (Hmono f) as [E|(v & E & Hv & Hin)]; [by left|].
      right. by exists v, parts, mt.
    + exists d. split; [|by left]. by rewrite lookup_insert_ne.
Qed.

Lemma merge_is_monotonic_witness :
  let d := <["alt" := VInt 5000]> {[ "icao" := VStr "ABC123" ]} in
  let raw := "MSG,1,1,1,ABC123,1,2024,1,1,,UAL123 " in
  ∃ d', adsb_aircraft (process_line (S754_zero false) raw
                         (merged "ABC123" d fresh)).2 !! "ABC123" = Some d' ∧
    ∀ field,
      d' !! field = d !! field
      ∨ ∃ v parts msg_type,
          d' !! field = Some v ∧ nonempty v
          ∧ accept (strip raw) = Some (parts, msg_type, "ABC123")
          ∧ truthy (incoming msg_type parts field) = true.
Proof.
  intros d raw.
  apply (merge_is_monotonic (S754_zero false) raw (merged "ABC123" d fresh)
           "ABC123" d).
  vm_compute. reflexivity.
Defined.

(** *** Numbers as Python reads them *)

Example int_float_decimal : int_float "3500.0" = inr 3500.
Proof. reflexivity. Qed.

Example int_float_truncates : int_float " -12.9 " = inr (-12).
Proof. reflexivity. Qed.

Example int_float_underscore : int_float "1_000.5e+1" = inr 10005.
Proof. reflexivity. Qed.

Example int_float_text : int_float "high" = inl ValueError.
Proof. reflexivity. Qed.

Example int_float_nan : int_float "nan" = inl ValueError.
Proof. reflexivity. Qed.

Example int_float_infinity : int_float "-Infinity" = inl OverflowError.
Proof. reflexivity. Qed.

Example int_float_huge : int_float "1e999" = inl OverflowError.
Proof. reflexivity. Qed.

Example float_tenth :
  py_float "0.1" = inr (S754_finite false 7205759403792794 (-56))
  ∧ nearest (S754_finite false 7205759403792794 (-56)) 1 10.
Proof. by vm_compute. Qed.

(** *** Exceptions out of the branch on the message type *)

Lemma py_float_raises s e : py_float s = inl e → e = ValueError.
Proof.
  unfold py_float. destruct (drop_underscores _ _) as [t|]; [|congruence].
  destruct (strtod _) as [[x [|c r]]|]; congruence.
Qed.

Lemma never_raises_ret : never_raises (mret tt).
Proof. done. Qed.

Lemma never_raises_seq (m k : M unit) :
  never_raises m → never_raises k → never_raises (m ;; k).
Proof.
  intros Hm Hk d. unfold mbind, M_bind. specialize (Hm d).
  destruct (m d) as [[e|[]] d1]; [done|]. apply Hk.
Qed.

Lemma never_raises_when c m :
  (c = true → never_raises m) → never_raises (when c m).
Proof. destruct c; cbn; auto using never_raises_ret. Qed.

Lemma never_raises_setitem k v : never_raises (setitem k v).
Proof. done. Qed.

Lemma never_raises_set_int k s :
  is_infinity (py_float s) = false → never_raises (set_int k s).
Proof.
  intros Hs. apply never_raises_when. intros _ d.
  unfold try_except_ValueError, int_float, mbind, M_bind, eval.
  destruct (py_float s) as [e|x] eqn:E.
  - by rewrite (py_float_raises _ _ E).
  - by destruct x.
Qed.

Lemma never_raises_position a b :
  never_raises
    (try_except_ValueError
       (lat ← eval (py_float a); setitem "lat" (VFloat lat);;
        lon ← eval (py_float b); setitem "lon" (VFloat lon))).
Proof.
  intros d. unfold try_except_ValueError, mbind, M_bind, eval, setitem.
  destruct (py_float a) as [e|x] eqn:Ea.
  { by rewrite (py_float_raises _ _ Ea). }
  destruct (py_float b) as [e|y] eqn:Eb; [|done].
  by rewrite (py_float_raises _ _ Eb).
Qed.

(** Only an infinite value in an integer column makes the branch raise. *)
Lemma apply_fields_never_raises msg_type parts :
  overflows msg_type parts = false → never_raises (apply_fields msg_type parts).
Proof.
  unfold overflows, int_columns, apply_fields.
  case_msg_type; intros Hov; try apply never_raises_ret.
  - apply orb_false_elim in Hov as [H11 _].
    apply never_raises_seq; [by apply never_raises_set_int|].
    apply never_raises_when. intros _. apply never_raises_position.
  - apply orb_false_elim in Hov as [H12 [H13 _]%orb_false_elim].
    apply never_raises_seq; by apply never_raises_set_int.
  - apply orb_false_elim in Hov as [H11 _].
    apply never_raises_seq; [|by apply never_raises_set_int].
    apply never_raises_when. intros _. apply never_raises_when. intros _.
    apply never_raises_setitem.
  - apply never_raises_when. intros _. apply never_raises_setitem.
  - apply never_raises_when. intros _. apply never_raises_setitem.
Qed.

(** A line that is not dropped and has no infinite integer column is
    stored and marked, then the tick is checked. *)
Lemma process_line_merges now raw st parts msg_type icao :
  accept (strip raw) = Some (parts, msg_type, icao) →
  overflows msg_type parts = false →
  process_line now raw st =
    (inr tt,
     publish_tick now
       (merged icao (apply_fields msg_type parts (bound icao st)).2 st)).
Proof.
  intros Ha Hov.
  pose proof (apply_fields_never_raises _ _ Hov (bound icao st)) as Hok.
  destruct (apply_fields msg_type parts (bound icao st)) as [[e|[]] d'] eqn:Hf;
    [done|].
  by apply process_line_stored with parts msg_type.
Qed.

(** What [accept] tests. *)
Lemma accept_None_short line :
  (length (split ","%char line) < 11)%nat ∨ item (split ","%char line) 0 ≠ "MSG" →
  accept line = None.
Proof.
  intros H. unfold accept.
  destruct (Z.ltb_spec (Z.of_nat (length (split ","%char line))) 11) as [|Hlen];
    [done|].
  destruct H as [H|H]; [lia|].
  destruct (String.eqb_spec (item (split ","%char line) 0) "MSG"); done.
Qed.

(** C2. A type-3 line whose latitude parses and whose longitude does not
    moves the latitude of the record and leaves its longitude: after
    40.1 / -73.9 were stored for ABC123, the fields 51.5 / north give the
    record latitude 51.5 with the old longitude -73.9. *)
Theorem lat_written_when_lon_fails :
  let position st :=
    (adsb_aircraft st !! "ABC123" ≫= (.!! "lat"),
     adsb_aircraft st !! "ABC123" ≫= (.!! "lon")) in
  let st1 := (process_line (S754_zero false)
                "MSG,3,1,1,ABC123,1,2024,1,1,,,5000,,,40.1,-73.9,,,,,,0" fresh).2 in
  let out := process_line (S754_zero false)
                "MSG,3,1,1,ABC123,1,2024,1,1,,,,,,51.5,north,,,,,,0" st1 in
  item (split ","%char "MSG,3,1,1,ABC123,1,2024,1,1,,,,,,51.5,north,,,,,,0") 14 = "51.5"
  ∧ item (split ","%char "MSG,3,1,1,ABC123,1,2024,1,1,,,,,,51.5,north,,,,,,0") 15 = "north"
  ∧ py_float "north" = inl ValueError
  ∧ position st1 = (Some (VFloat (S754_finite false 5643573283048653 (-47))),
                    Some (VFloat (S754_finite true 5200250194729370 (-46))))
  ∧ out.1 = inr tt
  ∧ position out.2 = (Some (VFloat (S754_finite false 7247980650299392 (-47))),
                      Some (VFloat (S754_finite true 5200250194729370 (-46)))).
Proof. vm_compute. repeat split. Qed.

(** C3, as stated, fails: the example line of the specification has an
    empty field at index 14, so no position is stored for ABC123. *)
Lemma example_line_counterexample :
  ¬ ∃ d lat lon,
      adsb_aircraft (process_line (S754_zero false)
        "MSG,3,1,1,ABC123,1,2024,1,1,,,5000,,,,40.1,-73.9,,,,,,0" fresh).2
        !! "ABC123" = Some d
      ∧ d !! "alt" = Some (VInt 5000)
      ∧ d !! "lat" = Some (VFloat lat)
      ∧ d !! "lon" = Some (VFloat lon).
Proof.
  intros (d & lat & lon & Hd & _ & Hlat & _).
  vm_compute in Hd. injection Hd as <-. vm_compute in Hlat. discriminate.
Qed.

(** C3, amended. Against an empty registry the example line of the
    specification stores for ABC123 the altitude 5000 and no position:
    its fields 14, 15, 16 are empty, 40.1, -73.9.  The line with 40.1 and
    -73.9 at indices 14 and 15 stores altitude 5000, latitude 40.1 and
    longitude -73.9 (the binary64 numbers nearest to them). *)
Theorem example_line_amended now queue t pending :
  let st := {| adsb_aircraft := ∅; adsb_queue := queue; last_update := t;
               pending_updates := pending |} in
  let lat := S754_finite false 5643573283048653 (-47) in
  let lon := S754_finite true 5200250194729370 (-46) in
  adsb_aircraft (process_line now
      "MSG,3,1,1,ABC123,1,2024,1,1,,,5000,,,,40.1,-73.9,,,,,,0" st).2
    = {[ "ABC123" := <["alt" := VInt 5000]> {[ "icao" := VStr "ABC123" ]} ]}
  ∧ adsb_aircraft (process_line now
      "MSG,3,1,1,ABC123,1,2024,1,1,,,5000,,,40.1,-73.9,,,,,,0" st).2
    = {[ "ABC123" := <["lon" := VFloat lon]> (<["lat" := VFloat lat]>
                       (<["alt" := VInt 5000]> {[ "icao" := VStr "ABC123" ]})) ]}
  ∧ nearest lat 401 10 ∧ nearest lon (-739) 10.
Proof.
  intros st lat lon. split; [|split].
  - erewrite process_line_stored; [|by vm_compute..].
    cbn. by rewrite publish_tick_aircraft.
  - erewrite process_line_stored; [|by vm_compute..].
    cbn. by rewrite publish_tick_aircraft.
  - by vm_compute.
Qed.

(** C4, as stated, fails: a type-3 line whose altitude is not a number
    still creates the record of its aircraft. *)
Lemma malformed_line_counterexample :
  let out := process_line (S754_zero false)
               "MSG,3,1,1,ABC123,1,2024,1,1,,,high,,,,,,,,,,0" fresh in
  py_float "high" = inl ValueError
  ∧ ¬ (out.1 = inr tt ∧ adsb_aircraft out.2 = adsb_aircraft fresh).
Proof.
  split; [by vm_compute|]. intros [_ H].
  apply (f_equal (.!! "ABC123")) in H. vm_compute in H. discriminate.
Qed.

(** C4, amended. A line with fewer than 11 comma-separated fields or a
    leading tag other than MSG raises nothing and changes nothing: neither
    the registry, nor the change set, nor the queue.  For a line that is
    not dropped, a numeric field whose text [float] rejects keeps the
    value the record had, and, unless an integer column reads as an
    infinity, no exception is raised; the record is still stored under the
    identifier (created when absent) and the identifier marked, before the
    tick is checked. *)
Theorem malformed_line_amended now raw st :
  let parts := split ","%char (strip raw) in
  ((length parts < 11)%nat ∨ item parts 0 ≠ "MSG" →
   process_line now raw st = (inr tt, st))
  ∧ ∀ msg_type icao,
      accept (strip raw) = Some (parts, msg_type, icao) →
      let d' := (apply_fields msg_type parts (bound icao st)).2 in
      (∀ field, numeric field = true →
                py_float (incoming msg_type parts field) = inl ValueError →
                d' !! field = bound icao st !! field)
      ∧ (overflows msg_type parts = false →
         process_line now raw st = (inr tt, publish_tick now (merged icao d' st))).
Proof.
  intros parts. split.
  - intros H. apply process_line_dropped. right. by apply accept_None_short.
  - intros mt icao Ha d'. split.
    + intros f Hnum Hbad.
      destruct (apply_fields_monotone mt parts (bound icao st) f)
        as [E|(v & _ & _ & _ & Hparse)]; [done|].
      destruct (Hparse Hnum) as [x Hx]. congruence.
    + intros Hov. by apply process_line_merges.
Qed.

Lemma malformed_line_amended_witness :
  let raw := "MSG,3,1,1,ABC123,1,2024,1,1,,,high,,,,,,,,,,0" in
  let parts := split ","%char raw in
  let d' := (apply_fields "3" parts (bound "ABC123" fresh)).2 in
  process_line (S754_zero false) "MSG,3,1,1,ABC123" fresh = (inr tt, fresh)
  ∧ d' !! "alt" = bound "ABC123" fresh !! "alt"
  ∧ process_line (S754_zero false) raw fresh
    = (inr tt, publish_tick (S754_zero false) (merged "ABC123" d' fresh)).
Proof.
  intros raw parts d'. split.
  - apply (proj1 (malformed_line_amended (S754_zero false) "MSG,3,1,1,ABC123" fresh)).
    left. vm_compute. lia.
  - destruct (proj2 (malformed_line_amended (S754_zero false) raw fresh)
                "3" "ABC123") as [Hkeep Hstore].
    + vm_compute. reflexivity.
    + split.
      * apply Hkeep; vm_compute; reflexivity.
      * apply Hstore. vm_compute. reflexivity.
Defined.

(** C10. A line with the tag MSG, twelve fields and the identifier ABC123
    whose altitude column reads [inf] is neither stored nor marked:
    [int(float('inf'))] raises [OverflowError], which no handler of the
    line loop catches, and control leaves the loop before line 128. *)
Theorem overflow_line_not_stored :
  let line := "MSG,5,1,1,ABC123,1,2024,1,1,,,inf" in
  accept line = Some (split ","%char line, "5", "ABC123")
  ∧ length (split ","%char line) = 12%nat
  ∧ process_line (S754_zero false) line fresh = (inl OverflowError, fresh).
Proof. vm_compute. repeat split. Qed.

(** *** The batch publisher *)


(** When the tick is not due nothing is queued and nothing is forgotten. *)
Lemma publish_tick_not_due now st :
  fge (fsub now (last_update st)) one = false → publish_tick now st = st.
Proof. intros H. unfold publish_tick. by rewrite H. Qed.




(** Two messages for one aircraft between two publications: the second
    one arrives when the tick is due, and the queue receives one event
    holding the fields of both. *)
Example two_updates_one_event :
  let st1 := (process_line (S754_zero false)
                "MSG,3,1,1,ABC123,1,2024,1,1,,,5000,,,40.1,-73.9,,,,,,0" fresh).2 in
  let st2 := (process_line PyNum.one
                "MSG,1,1,1,abc123,1,2024,1,1,,UAL123 " st1).2 in
  adsb_queue st1 = []
  ∧ adsb_queue st2
    = [ <["type" := VStr "aircraft"]>
         (<["callsign" := VStr "UAL123"]>
           (<["lon" := VFloat (S754_finite true 5200250194729370 (-46))]>
             (<["lat" := VFloat (S754_finite false 5643573283048653 (-47))]>
               (<["alt" := VInt 5000]> {[ "icao" := VStr "ABC123" ]})))) ].
Proof. vm_compute. split; reflexivity. Qed.

End SbsFacts.

(* ===================================================================== *)
(** ** Properties of the connection loops                                *)
(* ===================================================================== *)

Module ReaderFacts.
Import PyStr PyNum Reader.

(** A connection attempt that ends with an exception is followed by the
    warning and the sleep of two seconds. *)
Lemma backoff_after_exception o r :
  flag o = true →
  (at_pc r = AtOuter ∧ connect_ok o = false)
  ∨ (at_pc r = AtInner ∧ rx o = RecvError) →
  at_pc (step o r) = AtOuter
  ∧ ∃ pre, trace (step o r) = trace r ++ pre ++ [Warning; Sleep 2].
Proof.
  destruct r as [p w b t], o as [f c ct x lt]. cbn.
  intros -> [[-> ->]|[-> ->]]; cbn.
  - split; [done|]. by exists [ConnectFailed].
  - split; [done|]. by exists [].
Qed.

(** The loops are left only by a test that reads the flag as false. *)
Lemma returns_only_when_flag_false o r :
  at_pc r ≠ Returned → at_pc (step o r) = Returned → flag o = false.
Proof.
  destruct r as [p w b t], o as [f c ct x lt]. unfold step. cbn.
  destruct p; [| |done]; intros _; destruct f; cbn; try done.
  - by destruct c.
  - destruct x as [data| |]; cbn; try done.
    destruct (truthy data); cbn; [|done].
    by destruct (drain _ _ _) as [[?|?] ?].
Qed.

(** C6. The peer closes the connection while the flag is set: the socket
    is closed and the next connection is made at once, no sleep between
    the two.  The script: flag set and connection accepted; flag set and
    [recv] returns no data; flag set and connection accepted. *)
Theorem peer_close_reconnects_without_backoff :
  let o := {| flag := true; connect_ok := true;
              connect_time := S754_zero false;
              rx := RecvData EmptyString;
              line_time := λ _, S754_zero false |} in
  let r0 := {| at_pc := AtOuter; world := Sbs.fresh; buffer := EmptyString;
               trace := [] |} in
  trace (run [o; o; o] r0) = [Connect; Close; Connect]
  ∧ at_pc (run [o; o; o] r0) = AtInner.
Proof. vm_compute. split; reflexivity. Qed.

End ReaderFacts.

(* ===================================================================== *)
(** ** Properties of [start_adsb] and [stop_adsb]                        *)
(* ===================================================================== *)

Module SessionFacts.
Import Session.

Lemma start_keeps_aircraft env s :
  adsb_aircraft (start_adsb env s).2 = adsb_aircraft s.
Proof.
  unfold start_adsb.
  destruct (match adsb_process s with Some _ => old_alive env | None => false end);
    [done|].
  destruct (adsb_using_service s); [done|].
  destruct (dump1090_path env); [|done].
  destruct (popen env _); [done|].
  destruct (new_alive env); cbn; [|done].
  by destruct (thread_start env).
Qed.

(** [stop_adsb] taken alone, no reader thread running beside it: it
    answers [{status: stopped}] and leaves the flag cleared, no decoder
    process and an empty registry, whatever the state it is called in;
    called again it gives the same answer and the same state;
    [start_adsb] called next ends with an empty registry. *)
Lemma stop_alone_is_idempotent_and_clears wait_expired s :
  let resp := (stop_adsb wait_expired s).1.1 in
  let s' := (stop_adsb wait_expired s).2 in
  resp = Response "stopped" None
  ∧ adsb_using_service s' = false
  ∧ adsb_process s' = None
  ∧ adsb_aircraft s' = ∅
  ∧ (∀ w, (stop_adsb w s').1.1 = resp ∧ (stop_adsb w s').2 = s')
  ∧ (∀ env, adsb_aircraft (start_adsb env s').2 = ∅).
Proof.
  intros resp s'. do 4 (split; [done|]). split.
  - by intros w.
  - intros env. by rewrite start_keeps_aircraft.
Qed.

(** C8. When the decoder runs or the flag is set, [start_adsb] answers
    [already_running] and changes nothing.  Otherwise, when the decoder is
    not found, cannot be spawned or has exited after the spawn, it answers
    [error], the flag stays false and no reader thread is started. *)
Theorem start_refuses env s :
  (already_running env s = true →
   status (start_adsb env s).1 = "already_running" ∧ (start_adsb env s).2 = s)
  ∧ (already_running env s = false → decoder_fails env = true →
     status (start_adsb env s).1 = "error"
     ∧ adsb_using_service (start_adsb env s).2 = false
     ∧ readers (start_adsb env s).2 = readers s).
Proof.
  unfold already_running, decoder_fails, start_adsb.
  destruct (match adsb_process s with Some _ => old_alive env | None => false end);
    cbn; [by split|].
  destruct (adsb_using_service s) eqn:Hflag; cbn; [by split|].
  split; [done|]. intros _.
  destruct (dump1090_path env); [|done].
  destruct (popen env _); [done|].
  destruct (new_alive env); cbn; done.
Qed.

Lemma start_refuses_witness :
  let env := {| old_alive := true; which := λ _, None;
                popen := λ _, inl "spawn"; new_alive := false;
                thread_start := None; gain := "40"; device := "0" |} in
  let running := {| adsb_process := None; adsb_using_service := true;
                    adsb_aircraft := ∅; readers := 1 |} in
  let idle := {| adsb_process := None; adsb_using_service := false;
                 adsb_aircraft := ∅; readers := 0 |} in
  (status (start_adsb env running).1 = "already_running"
   ∧ (start_adsb env running).2 = running)
  ∧ (status (start_adsb env idle).1 = "error"
     ∧ adsb_using_service (start_adsb env idle).2 = false
     ∧ readers (start_adsb env idle).2 = readers idle).
Proof.
  intros env running idle. split.
  - apply (proj1 (start_refuses env running)). reflexivity.
  - apply (proj2 (start_refuses env idle)); reflexivity.
Defined.

End SessionFacts.

(* ===================================================================== *)
(** ** Properties of a stop beside a running reader                      *)
(* ===================================================================== *)

Module RaceFacts.
Import Reader Session Race SessionFacts.

(** When the thread is not between a test that read the flag and the end
    of that turn while [stop_adsb] runs, whatever the thread does
    afterwards leaves the registry empty. *)
Lemma stop_holds_when_tested_after wait_expired es p :
  seen p = None →
  adsb_aircraft (globals (execs es (exec (Stop wait_expired) p))) = ∅.
Proof.
  intros Hseen.
  assert (∀ es q, adsb_using_service (globals q) = false →
                  adsb_aircraft (globals q) = ∅ →
                  (seen q = None ∨ seen q = Some false) →
                  adsb_aircraft (globals (execs es q)) = ∅) as Hinv.
  { clear. induction es as [|e es IH]; intros q Hflag Hreg Hs; [done|].
    cbn [execs fold_left]. apply IH; clear IH;
      destruct q as [g [pc w b t] sn]; cbn in *;
      destruct e as [|o|wx]; cbn; auto;
      try (rewrite Hflag; by auto);
      destruct Hs as [->| ->]; cbn; auto;
      unfold step; cbn; destruct pc; cbn; auto. }
  apply Hinv; cbn; [done..|]. by left.
Qed.

(** C7. The thread reads the flag as set, [stop_adsb] runs to its end,
    then the thread goes on with its turn: the line it receives is stored
    in the registry that [stop_adsb] has just emptied.  The flag is
    cleared and the answer was [stopped], but the registry holds ABC123,
    and it still does after the next [start_adsb], whatever that one
    finds.  The thread itself returns at its next tests. *)
Theorem stop_does_not_keep_registry_empty :
  let o := {| flag := true; connect_ok := true;
              connect_time := S754_zero false;
              rx := RecvData
                      ("MSG,3,1,1,ABC123,1,2024,1,1,,,5000,,,40.1,-73.9,,,,,,0"
                       +:+ String "010"%char EmptyString);
              line_time := λ _, S754_zero false |} in
  let p0 := {| globals := {| adsb_process := Some (Process 7);
                             adsb_using_service := true;
                             adsb_aircraft := ∅;
                             readers := 1 |};
               thread := {| at_pc := AtInner; world := Sbs.fresh;
                            buffer := EmptyString; trace := [Connect] |};
               seen := None |} in
  let p := execs [Test; Stop false; Turn o] p0 in
  (stop_adsb false (globals p0)).1.1 = Response "stopped" None
  ∧ adsb_using_service (globals p) = false
  ∧ adsb_aircraft (globals p) !! "ABC123"
    = Some (<["lon" := VFloat (S754_finite true 5200250194729370 (-46))]>
             (<["lat" := VFloat (S754_finite false 5643573283048653 (-47))]>
               (<["alt" := VInt 5000]> {[ "icao" := VStr "ABC123" ]})))
  ∧ (∀ env, is_Some (adsb_aircraft (start_adsb env (globals p)).2 !! "ABC123"))
  ∧ adsb_aircraft (globals (execs [Stop false; Test; Turn o] p0)) = ∅
  ∧ at_pc (thread (execs [Test; Turn o; Test; Turn o] p)) = Returned.
Proof.
  intros o p0 p. split; [done|]. split; [done|].
  assert (adsb_aircraft (globals p) !! "ABC123"
          = Some (<["lon" := VFloat (S754_finite true 5200250194729370 (-46))]>
                   (<["lat" := VFloat (S754_finite false 5643573283048653 (-47))]>
                     (<["alt" := VInt 5000]> {[ "icao" := VStr "ABC123" ]}))))
    as Hreg by (vm_compute; reflexivity).
  split; [exact Hreg|]. split; [|split].
  - intros env. rewrite start_keeps_aircraft, Hreg. by eexists.
  - vm_compute. reflexivity.
  - vm_compute. reflexivity.
Qed.

End RaceFacts.

(* ===================================================================== *)
(** ** Properties of the shared queue                                    *)
(* ===================================================================== *)

Module FanoutFacts.
Import Fanout Frames.

Lemma run_cons c calls ch : run (c :: calls) ch = run calls (serve c ch).
Proof. done. Qed.

(** What was sent and what is queued, together, grow by what is put. *)
Lemma run_conserves calls ch :
  sent (run calls ch) ++ queue (run calls ch) = sent ch ++ queue ch ++ puts calls.
Proof.
  revert ch. induction calls as [|c calls IH]; intros ch.
  - cbn. by rewrite app_nil_r.
  - rewrite run_cons, IH. destruct c as [msg|i]; cbn.
    + by rewrite <- !app_assoc.
    + destruct (queue ch) as [|msg rest] eqn:Hq; unfold sent; cbn;
        rewrite omap_app; cbn; by rewrite <- ?app_assoc, ?app_nil_r.
Qed.

(** With the subscriber [i] alone, every frame goes to [i]. *)
Lemma run_single_subscriber i calls ch :
  (∀ j, Get j ∈ calls → j = i) →
  (∀ p, p ∈ yielded ch → p.1 = i) →
  ∀ p, p ∈ yielded (run calls ch) → p.1 = i.
Proof.
  revert ch. induction calls as [|c calls IH]; intros ch Hc Hy; [done|].
  rewrite run_cons. apply IH.
  - intros j Hj. apply Hc. by right.
  - destruct c as [msg|j]; cbn; [done|].
    assert (j = i) as -> by (apply Hc; left).
    destruct (queue ch); cbn; intros p [?| ->%list_elem_of_singleton]%elem_of_app;
      auto.
Qed.

Lemma received_all i (l : list (nat * frame)) :
  (∀ p, p ∈ l → p.1 = i) →
  omap (λ p, if decide (p.1 = i) then Some p.2 else None) l = l.*2.
Proof.
  induction l as [|p l IH]; intros H; [done|]. cbn.
  rewrite decide_True by (apply H; left). cbn. f_equal.
  apply IH. intros q Hq. apply H. by right.
Qed.

(** C9, as stated, fails: one message is put while the subscribers 0 and
    1 both poll the queue; it is sent to the subscriber 0 only, and the
    queue is empty afterwards. *)
Lemma fanout_counterexample :
  let msg := Sbs.event_of {[ "icao" := VStr "ABC123" ]} in
  let ch := run [Put msg; Get 0; Get 1; Get 0; Get 1] (Channel [] []) in
  queue ch = []
  ∧ ¬ (Data msg ∈ received 0 ch ∧ Data msg ∈ received 1 ch).
Proof.
  split; [done|]. intros [_ H]. vm_compute in H.
  apply elem_of_cons in H as [H|H]; [discriminate|].
  apply elem_of_cons in H as [H|H]; [discriminate|].
  by apply elem_of_nil in H.
Qed.

(** The frame of a delivery adds its message to what its subscriber has
    received and to nothing else. *)
Lemma received_cons i j (f : frame) (l : list (nat * frame)) :
  messages (omap (λ p, if decide (p.1 = i) then Some p.2 else None) ((j, f) :: l))
  = (if decide (j = i) then messages [f] else [])
    ++ messages (omap (λ p, if decide (p.1 = i) then Some p.2 else None) l).
Proof. cbn. destruct (decide (j = i)); [by destruct f | done]. Qed.

Lemma shares_other (subs : list nat) j (f : frame) (l : list (nat * frame)) :
  j ∉ subs →
  (λ i, messages (omap (λ p, if decide (p.1 = i) then Some p.2 else None)
                       ((j, f) :: l))) <$> subs
  = (λ i, messages (omap (λ p, if decide (p.1 = i) then Some p.2 else None) l))
    <$> subs.
Proof.
  induction subs as [|k subs IH]; intros Hj; [done|].
  rewrite !fmap_cons, received_cons.
  rewrite decide_False by (intros ->; apply Hj; left).
  rewrite IH by (intros Hin; apply Hj; by right). done.
Qed.

Lemma shares_cons (subs : list nat) j (f : frame) (l : list (nat * frame)) :
  NoDup subs → j ∈ subs →
  mjoin ((λ i, messages (omap (λ p, if decide (p.1 = i) then Some p.2 else None)
                              ((j, f) :: l))) <$> subs)
  ≡ₚ messages [f]
     ++ mjoin ((λ i, messages (omap (λ p, if decide (p.1 = i) then Some p.2 else None)
                                    l)) <$> subs).
Proof.
  induction subs as [|i subs IH]; intros Hnd Hj; [by apply elem_of_nil in Hj|].
  apply NoDup_cons in Hnd as [Hi Hnd].
  rewrite !fmap_cons; cbn [mjoin list_join]; rewrite received_cons.
  destruct (decide (j = i)) as [->|Hne].
  - rewrite (shares_other subs i f l Hi), <- app_assoc. reflexivity.
  - apply elem_of_cons in Hj as [?|Hj]; [done|]. cbn [app].
    rewrite (IH Hnd Hj). rewrite !app_assoc.
    apply Permutation_app_tail, Permutation_app_comm.
Qed.

Lemma shares_partition (subs : list nat) (l : list (nat * frame)) :
  NoDup subs → (∀ p, p ∈ l → p.1 ∈ subs) →
  mjoin ((λ i, messages (omap (λ p, if decide (p.1 = i) then Some p.2 else None) l))
         <$> subs)
  ≡ₚ omap (λ p, match p.2 with Data m => Some m | Keepalive => None end) l.
Proof.
  intros Hnd. induction l as [|[j f] l IH]; intros Hl.
  - cbn. clear. induction subs as [|i subs IH]; [done|]. cbn. exact IH.
  - rewrite shares_cons by (done || (apply (Hl (j, f)); left)).
    rewrite IH by (intros p Hp; apply Hl; by right).
    by destruct f.
Qed.

Lemma run_subscribers (subs : list nat) calls ch :
  (∀ j, Get j ∈ calls → j ∈ subs) →
  (∀ p, p ∈ yielded ch → p.1 ∈ subs) →
  ∀ p, p ∈ yielded (run calls ch) → p.1 ∈ subs.
Proof.
  revert ch. induction calls as [|c calls IH]; intros ch Hc Hy; [done|].
  rewrite run_cons. apply IH.
  - intros j Hj. apply Hc. by right.
  - destruct c as [msg|j]; cbn; [done|].
    assert (j ∈ subs) as Hj by (apply Hc; left).
    destruct (queue ch); cbn; intros p [?| ->%list_elem_of_singleton]%elem_of_app;
      auto.
Qed.

(** C9, amended. The channel is one queue served first come first served,
    not a broadcast: a delivery goes to the one subscriber whose [get]
    takes the message.  The messages delivered, in order, followed by the
    messages still queued, are the messages put, in order.  What the
    individual subscribers have received, put together, is what was
    delivered, each delivery once.  When one subscriber alone calls
    [get], it receives every message delivered. *)
Theorem queue_sends_each_message_once calls :
  let ch := run calls (Channel [] []) in
  sent ch ++ queue ch = puts calls
  ∧ (∀ subs, NoDup subs → (∀ j, Get j ∈ calls → j ∈ subs) →
       mjoin ((λ i, messages (received i ch)) <$> subs) ≡ₚ sent ch)
  ∧ ∀ i, (∀ j, Get j ∈ calls → j = i) → messages (received i ch) = sent ch.
Proof.
  intros ch. split; [|split].
  - unfold ch. by rewrite run_conserves.
  - intros subs Hnd Hsubs. unfold received, sent. apply shares_partition; [done|].
    apply run_subscribers; [done|]. intros p Hp. by apply elem_of_nil in Hp.
  - intros i Hi. unfold received, sent, messages.
    rewrite received_all.
    + generalize (yielded ch). intros l. induction l as [|p l IH]; [done|].
      cbn. destruct (p.2); cbn; by rewrite IH.
    + apply run_single_subscriber; [done|]. intros p Hp. by apply elem_of_nil in Hp.
Qed.

Lemma queue_sends_each_message_once_witness :
  let msg := Sbs.event_of {[ "icao" := VStr "ABC123" ]} in
  let calls := [Put msg; Get 0; Get 1; Get 0; Get 1] in
  let ch := run calls (Channel [] []) in
  mjoin ((λ i, messages (received i ch)) <$> [0%nat; 1%nat]) ≡ₚ sent ch.
Proof.
  intros msg calls ch.
  apply (proj1 (proj2 (queue_sends_each_message_once calls)) [0%nat; 1%nat]).
  - repeat constructor; rewrite ?elem_of_cons, ?elem_of_nil; intuition discriminate.
  - intros j Hj. unfold calls in Hj. rewrite !elem_of_cons in Hj.
    rewrite !elem_of_cons.
    destruct Hj as [Hj|[Hj|[Hj|[Hj|[Hj|Hj]]]]];
      try discriminate; try (injection Hj as ->; auto).
    by apply elem_of_nil in Hj.
Defined.

End FanoutFacts.

(* ===================================================================== *)
(** ** Further properties: text                                          *)
(* ===================================================================== *)

Module TextFacts.
Import PyStr PyNum Sbs Schema.

Lemma split_nonempty sep s : split sep s ≠ [].
Proof.
  destruct s as [|c s]; [done|]. cbn.
  destruct (Ascii.eqb c sep); [done|]. by destruct (split sep s).
Qed.

Lemma concat_cons sep p ps :
  ps ≠ [] → String.concat sep (p :: ps) = (p +:+ sep +:+ String.concat sep ps).
Proof. by destruct ps. Qed.

Lemma split_facts sep s :
  String.concat (String sep EmptyString) (split sep s) = s
  ∧ Forall (λ p, ¬ In sep (list_ascii_of_string p)) (split sep s)
  ∧ length (split sep s) = S (count_occ ascii_dec (list_ascii_of_string s) sep).
Proof.
  induction s as [|c s (IHc & IHf & IHl)].
  { cbn. repeat split. constructor; [|constructor]. by intros []. }
  cbn [split list_ascii_of_string].
  destruct (Ascii.eqb_spec c sep) as [->|Hne].
  - rewrite concat_cons by apply split_nonempty. rewrite IHc.
    split; [done|]. split.
    + constructor; [by intros []|done].
    + cbn [length]. rewrite IHl, count_occ_cons_eq; done.
  - pose proof (split_nonempty sep s) as Hs.
    destruct (split sep s) as [|p ps]; [done|].
    apply Forall_cons in IHf as [Hp Hps]. split; [|split].
    + rewrite <- IHc. by destruct ps.
    + constructor; [|done]. cbn. intros [?|?]; [congruence|done].
    + rewrite count_occ_cons_neq by done. exact IHl.
Qed.

(** The fields of a line, joined again by the separator, are the line;
    no field holds the separator; there is one field more than there are
    separators in the line. *)
Theorem split_is_lossless sep s :
  String.concat (String sep EmptyString) (split sep s) = s
  ∧ Forall (λ p, ¬ In sep (list_ascii_of_string p)) (split sep s)
  ∧ length (split sep s) = S (count_occ ascii_dec (list_ascii_of_string s) sep).
Proof. exact (split_facts sep s). Qed.

Lemma upper_char_idemp c : upper_char (upper_char c) = upper_char c.
Proof.
  destruct c as [[] [] [] [] [] [] [] []]; reflexivity.
Qed.

Lemma upper_idemp s : upper (upper s) = upper s.
Proof. induction s as [|c s IH]; [done|]. cbn. by rewrite upper_char_idemp, IH. Qed.

Lemma upper_truthy s : truthy (upper s) = truthy s.
Proof. by destruct s. Qed.

Lemma app_cons c (s t : string) : String c s +:+ t = String c (s +:+ t).
Proof. done. Qed.

Lemma lstrip_blank w s :
  blank w = true → lstrip_of is_space (w +:+ s) = lstrip_of is_space s.
Proof.
  induction w as [|c w IH]; [done|]. cbn [blank]. intros [Hc Hw]%andb_prop.
  rewrite app_cons. cbn [lstrip_of]. rewrite Hc. by apply IH.
Qed.

Lemma lstrip_blank_only w : blank w = true → lstrip_of is_space w = EmptyString.
Proof.
  induction w as [|c w IH]; [done|]. cbn [blank lstrip_of].
  intros [Hc Hw]%andb_prop. rewrite Hc. by apply IH.
Qed.

Lemma rstrip_blank_only w : blank w = true → rstrip_of is_space w = EmptyString.
Proof.
  induction w as [|c w IH]; [done|]. cbn [blank rstrip_of].
  intros [Hc Hw]%andb_prop. by rewrite IH, Hc.
Qed.

Lemma rstrip_blank t w :
  blank w = true → rstrip_of is_space (t +:+ w) = rstrip_of is_space t.
Proof.
  intros Hw. induction t as [|c t IH].
  - by apply rstrip_blank_only.
  - rewrite app_cons. cbn [rstrip_of]. by rewrite IH.
Qed.

Lemma lstrip_app_blank s w :
  blank w = true →
  rstrip_of is_space (lstrip_of is_space (s +:+ w))
  = rstrip_of is_space (lstrip_of is_space s).
Proof.
  intros Hw. induction s as [|c s IH].
  - change (EmptyString +:+ w) with w. by rewrite lstrip_blank_only.
  - rewrite app_cons. cbn [lstrip_of]. destruct (is_space c); [done|].
    rewrite <- app_cons. by apply rstrip_blank.
Qed.

(** White space around a line is ignored. *)
Lemma strip_blank w1 s w2 :
  blank w1 = true → blank w2 = true → strip (w1 +:+ s +:+ w2) = strip s.
Proof.
  intros H1 H2. unfold strip, strip_of.
  rewrite lstrip_blank by done. by apply lstrip_app_blank.
Qed.

End TextFacts.

(* ===================================================================== *)
(** ** Further properties: the line loop                                 *)
(* ===================================================================== *)

Module LineFacts.
Import PyStr PyNum Sbs Schema SbsFacts TextFacts.

(** Unfolds the statements of a branch and splits on every test and
    every parse they make. *)
Ltac run_fields :=
  unfold set_int, when, try_except_ValueError, int_float, mbind, M_bind,
    eval, setitem, mret, M_ret;
  repeat match goal with
  | |- context [truthy ?s] => destruct (truthy s) eqn:?
  | |- context [py_float ?s] => destruct (py_float s) as [[]|?] eqn:?
  | |- context [py_int ?x] => destruct (py_int x) as [[]|?] eqn:?
  end; cbn [andb fst snd] in *.

Ltac lookups := cbn; rewrite ?lookup_insert; repeat case_decide; done.

Ltac same_map :=
  apply map_eq; intros ?; rewrite ?lookup_insert; repeat case_decide; congruence.

(** The registry a line leaves, in terms of the registry it finds. *)
Lemma process_line_aircraft now raw st :
  adsb_aircraft (process_line now raw st).2 =
  match accept (strip raw) with
  | None => adsb_aircraft st
  | Some (parts, msg_type, icao) =>
      match apply_fields msg_type parts (bound icao st) with
      | (inr _, d') => <[icao := d']> (adsb_aircraft st)
      | (inl _, d') =>
          match adsb_aircraft st !! icao with
          | Some _ => <[icao := d']> (adsb_aircraft st)
          | None => adsb_aircraft st
          end
      end
  end.
Proof.
  destruct (accept (strip raw)) as [[[parts mt] icao]|] eqn:Ha.
  - destruct (apply_fields mt parts (bound icao st)) as [[e|[]] d'] eqn:Hf.
    + by rewrite (process_line_raised _ _ _ _ _ _ _ _ Ha Hf).
    + rewrite (process_line_stored _ _ _ _ _ _ _ Ha Hf). cbn.
      by rewrite publish_tick_aircraft.
  - by rewrite process_line_dropped by auto.
Qed.

(** White space around a line, the carriage return of a CR LF line end
    among it, does not change what the line does. *)
Theorem padding_is_ignored now w1 raw w2 st :
  blank w1 = true → blank w2 = true →
  process_line now (w1 +:+ raw +:+ w2) st = process_line now raw st.
Proof. intros H1 H2. unfold process_line. by rewrite strip_blank. Qed.

Lemma padding_is_ignored_witness :
  process_line (S754_zero false)
    (" " +:+ "MSG,3,1,1,ABC123,1,2024,1,1,,,5000,,,40.1,-73.9,,,,,,0"
         +:+ String "013" EmptyString) fresh
  = process_line (S754_zero false)
      "MSG,3,1,1,ABC123,1,2024,1,1,,,5000,,,40.1,-73.9,,,,,,0" fresh.
Proof.
  apply (padding_is_ignored (S754_zero false) " "
           "MSG,3,1,1,ABC123,1,2024,1,1,,,5000,,,40.1,-73.9,,,,,,0"
           (String "013" EmptyString) fresh); reflexivity.
Defined.

(** A line of white space, and a line whose fifth field is empty, raise
    nothing and change nothing; the tick is not checked either. *)
Theorem blank_or_anonymous_line_is_dropped now raw st :
  blank raw = true ∨ item (split ","%char (strip raw)) 4 = EmptyString →
  process_line now raw st = (inr tt, st).
Proof.
  intros [H|H]; apply process_line_dropped.
  - left. unfold strip, strip_of. by rewrite lstrip_blank_only.
  - right. unfold accept. rewrite H. cbn. by destruct (_ || _).
Qed.

Lemma blank_or_anonymous_line_is_dropped_witness :
  process_line PyNum.one "MSG,3,1,1,,1,2024,1,1,,,5000,,,40.1,-73.9,,,,,,0" fresh
  = (inr tt, fresh).
Proof.
  apply (blank_or_anonymous_line_is_dropped PyNum.one
           "MSG,3,1,1,,1,2024,1,1,,,5000,,,40.1,-73.9,,,,,,0" fresh).
  right. reflexivity.
Defined.

(** A line changes the entry of no identifier but its own, and removes
    no entry. *)
Theorem only_the_named_aircraft_changes now raw st i :
  adsb_aircraft (process_line now raw st).2 !! i = adsb_aircraft st !! i
  ∨ (is_Some (adsb_aircraft (process_line now raw st).2 !! i)
     ∧ ∃ parts msg_type, accept (strip raw) = Some (parts, msg_type, i)).
Proof.
  rewrite process_line_aircraft.
  destruct (accept (strip raw)) as [[[parts mt] icao]|] eqn:Ha; [|by left].
  destruct (decide (icao = i)) as [->|Hne].
  - destruct (apply_fields mt parts (bound i st)) as [[e|[]] d'].
    + destruct (adsb_aircraft st !! i) eqn:E; [|by left].
      right. rewrite lookup_insert_eq. eauto.
    + right. rewrite lookup_insert_eq. eauto.
  - left. destruct (apply_fields mt parts (bound icao st)) as [[e|[]] d'];
      [destruct (adsb_aircraft st !! icao)|]; by rewrite ?lookup_insert_ne.
Qed.

(** The branch on the message type applied to its own result gives that
    result again. *)
Lemma apply_fields_again msg_type parts d :
  apply_fields msg_type parts (apply_fields msg_type parts d).2
  = apply_fields msg_type parts d.
Proof.
  unfold apply_fields. case_msg_type; try done; run_fields;
    try done; f_equal; same_map.
Qed.

(** Processing a line a second time leaves the registry as the first
    time left it, whatever the clock reads. *)
Theorem reapplying_a_line_changes_nothing now1 now2 raw st :
  adsb_aircraft (process_line now2 raw (process_line now1 raw st).2).2
  = adsb_aircraft (process_line now1 raw st).2.
Proof.
  rewrite (process_line_aircraft now2).
  destruct (accept (strip raw)) as [[[parts mt] icao]|] eqn:Ha; [|done].
  unfold bound at 1.
  remember (adsb_aircraft (process_line now1 raw st).2) as reg1 eqn:Hreg1.
  rewrite process_line_aircraft, Ha in Hreg1.
  pose proof (apply_fields_again mt parts (bound icao st)) as Hagain.
  destruct (apply_fields mt parts (bound icao st)) as [[e|[]] d'] eqn:Hf;
    cbn in Hagain.
  - destruct (adsb_aircraft st !! icao) as [d0|] eqn:Hk; subst reg1.
    + rewrite !lookup_insert_eq. cbn [default id]. rewrite Hagain.
      by rewrite insert_insert_eq.
    + rewrite Hk. unfold bound in Hf. rewrite Hk in Hf. by rewrite Hf.
  - subst reg1. rewrite !lookup_insert_eq. cbn [default id]. rewrite Hagain.
    by rewrite insert_insert_eq.
Qed.

(** *** What a line stores *)

Lemma py_float_truthy s x : py_float s = inr x → truthy s = true.
Proof. destruct s; [by vm_compute|done]. Qed.

Lemma int_float_inv s z :
  int_float s = inr z → ∃ x, py_float s = inr x ∧ py_int x = inr z.
Proof. unfold int_float. destruct (py_float s) as [|x]; [done|]. eauto. Qed.

Lemma accept_inv line parts msg_type icao :
  accept line = Some (parts, msg_type, icao) →
  parts = split ","%char line ∧ msg_type = item parts 1
  ∧ icao = upper (item parts 4) ∧ icao ≠ EmptyString.
Proof.
  unfold accept. cbv zeta. destruct (_ || _); [done|].
  destruct (truthy (upper (item (split ","%char line) 4))) eqn:Ht; [|done].
  intros [= <- <- <-]. repeat split. intros E. by rewrite E in Ht.
Qed.

(** The record found under the identifier of a line after the line. *)
Lemma record_after now raw st parts msg_type icao d' :
  accept (strip raw) = Some (parts, msg_type, icao) →
  adsb_aircraft (process_line now raw st).2 !! icao = Some d' →
  d' = (apply_fields msg_type parts (bound icao st)).2.
Proof.
  intros Ha. rewrite process_line_aircraft, Ha.
  destruct (apply_fields msg_type parts (bound icao st)) as [[e|[]] d1]; cbn.
  - destruct (adsb_aircraft st !! icao) eqn:Hk.
    + rewrite lookup_insert_eq. congruence.
    + rewrite Hk. done.
  - rewrite lookup_insert_eq. congruence.
Qed.

Lemma position_kept parts d e :
  py_float (item parts 14) = inl e →
  (apply_fields "3" parts d).2 !! "lat" = d !! "lat"
  ∧ (apply_fields "3" parts d).2 !! "lon" = d !! "lon".
Proof.
  intros He. unfold apply_fields. case_msg_type; [|done].
  run_fields; try congruence; by rewrite ?lookup_insert_ne.
Qed.

(** A type-3 line whose latitude text [float] rejects leaves both the
    latitude and the longitude of the record as they were. *)
Theorem rejected_latitude_keeps_position now raw st parts icao e d' :
  accept (strip raw) = Some (parts, "3", icao) →
  py_float (item parts 14) = inl e →
  adsb_aircraft (process_line now raw st).2 !! icao = Some d' →
  d' !! "lat" = bound icao st !! "lat" ∧ d' !! "lon" = bound icao st !! "lon".
Proof.
  intros Ha He Hd. rewrite (record_after _ _ _ _ _ _ _ Ha Hd).
  by apply position_kept with e.
Qed.

Lemma rejected_latitude_keeps_position_witness :
  let raw := "MSG,3,1,1,ABC123,1,2024,1,1,,,5000,,,north,-73.9,,,,,,0" in
  let d' : gmap string pyval :=
    <["alt" := VInt 5000]> {[ "icao" := VStr "ABC123" ]} in
  d' !! "lat" = bound "ABC123" fresh !! "lat"
  ∧ d' !! "lon" = bound "ABC123" fresh !! "lon".
Proof.
  intros raw d'.
  apply (rejected_latitude_keeps_position (S754_zero false) raw fresh
           (split ","%char raw) "ABC123" ValueError d');
    vm_compute; reflexivity.
Defined.

Lemma position_stored parts d x y :
  (15 < length parts)%nat →
  is_infinity (py_float (item parts 11)) = false →
  py_float (item parts 14) = inr x → py_float (item parts 15) = inr y →
  (apply_fields "3" parts d).2 !! "lat" = Some (VFloat x)
  ∧ (apply_fields "3" parts d).2 !! "lon" = Some (VFloat y).
Proof.
  intros Hlen Hinf Hx Hy. unfold apply_fields.
  assert ((15 <? Z.of_nat (length parts))%Z = true) as ->
    by (apply Z.ltb_lt; lia).
  change (String.eqb "3" "1") with false. change (String.eqb "3" "3") with true.
  cbn [andb].
  rewrite (py_float_truthy _ _ Hx), (py_float_truthy _ _ Hy).
  unfold set_int, when, try_except_ValueError, int_float, mbind, M_bind,
    eval, setitem. rewrite Hx, Hy.
  destruct (truthy (item parts 11)); cbn;
    [destruct (py_float (item parts 11)) as [e|[]] eqn:E11;
       [rewrite (py_float_raises _ _ E11)|..]; cbn in *; try done|];
    split; rewrite !lookup_insert; repeat case_decide; done.
Qed.

(** A type-3 line with more than 15 fields whose latitude and longitude
    both parse stores both, as parsed, whatever its altitude text is,
    provided the altitude does not read as an infinity. *)
Theorem position_stored_as_a_pair now raw st parts icao x y :
  accept (strip raw) = Some (parts, "3", icao) →
  (15 < length parts)%nat →
  is_infinity (py_float (item parts 11)) = false →
  py_float (item parts 14) = inr x →
  py_float (item parts 15) = inr y →
  (process_line now raw st).1 = inr tt
  ∧ ∃ d', adsb_aircraft (process_line now raw st).2 !! icao = Some d'
          ∧ d' !! "lat" = Some (VFloat x) ∧ d' !! "lon" = Some (VFloat y).
Proof.
  intros Ha Hlen Hinf Hx Hy.
  assert (overflows "3" parts = false) as Hov.
  { unfold overflows. cbn. by rewrite Hinf. }
  rewrite (process_line_merges _ _ _ _ _ _ Ha Hov). cbn. split; [done|].
  rewrite publish_tick_aircraft. cbn. rewrite lookup_insert_eq.
  eexists. split; [done|]. by apply position_stored.
Qed.

Lemma position_stored_as_a_pair_witness :
  let raw := "MSG,3,1,1,ABC123,1,2024,1,1,,,high,,,40.1,-73.9,,,,,,0" in
  (process_line (S754_zero false) raw fresh).1 = inr tt
  ∧ ∃ d', adsb_aircraft (process_line (S754_zero false) raw fresh).2 !! "ABC123"
          = Some d'
          ∧ d' !! "lat" = Some (VFloat (S754_finite false 5643573283048653 (-47)))
          ∧ d' !! "lon" = Some (VFloat (S754_finite true 5200250194729370 (-46))).
Proof.
  intros raw.
  apply (position_stored_as_a_pair (S754_zero false) raw fresh
           (split ","%char raw) "ABC123").
  - vm_compute. reflexivity.
  - vm_compute. lia.
  - vm_compute. reflexivity.
  - vm_compute. reflexivity.
  - vm_compute. reflexivity.
Defined.

Lemma set_int_ok k s z d :
  int_float s = inr z → set_int k s d = (inr tt, <[k := VInt z]> d).
Proof.
  intros Hz. destruct (int_float_inv _ _ Hz) as (x & Hx & _).
  unfold set_int, when, try_except_ValueError, mbind, M_bind, eval, setitem.
  by rewrite (py_float_truthy _ _ Hx), Hz.
Qed.

Lemma set_int_frame k s d k' : k ≠ k' → (set_int k s d).2 !! k' = d !! k'.
Proof.
  intros Hne. run_fields; try done; cbn; by rewrite lookup_insert_ne.
Qed.

Lemma int_field_stored msg_type parts d field i z :
  selected msg_type parts = true → overflows msg_type parts = false →
  field ∈ ["alt"; "speed"; "heading"] →
  column msg_type field = Some i → int_float (item parts i) = inr z →
  (apply_fields msg_type parts d).2 !! field = Some (VInt z).
Proof.
  intros Hsel Hov Hf Hcol Hz. revert Hsel Hov Hcol Hz.
  rewrite !elem_of_cons, elem_of_nil in Hf.
  destruct Hf as [->|[->|[->|[]]]];
    unfold selected, overflows, int_columns, column, apply_fields;
    case_msg_type; cbn [orb andb existsb]; intros Hsel Hov Hcol Hz;
    simplify_eq; try done.
  - unfold mbind, M_bind. rewrite (set_int_ok _ _ _ _ Hz).
    run_fields; lookups.
  - unfold mbind, M_bind.
    destruct (when _ _ d) as [[e|[]] d1] eqn:E.
    { revert E. run_fields; done. }
    rewrite (set_int_ok _ _ _ _ Hz). lookups.
  - unfold mbind, M_bind. rewrite (set_int_ok _ _ _ _ Hz).
    pose proof (set_int_frame "heading" (item parts 13)
                  (<["speed" := VInt z]> d) "speed") as Hfr.
    destruct (set_int "heading" _ _) as [[e|[]] d1]; cbn in *;
      rewrite Hfr by done; lookups.
  - apply orb_false_elim in Hov as [H12 _]. unfold mbind, M_bind.
    pose proof (never_raises_set_int "speed" _ H12 d) as Hok.
    destruct (set_int "speed" _ d) as [[e|[]] d1]; [done|].
    rewrite (set_int_ok _ _ _ _ Hz). lookups.
Qed.

(** An integer field (altitude, speed, heading) whose text parses holds,
    after the line, the parsed number cut to an integer, even when
    another field of the line is rejected; no integer column may read as
    an infinity. *)
Theorem integer_field_is_truncated_parse
    now raw st parts msg_type icao field i z :
  accept (strip raw) = Some (parts, msg_type, icao) →
  selected msg_type parts = true →
  overflows msg_type parts = false →
  field ∈ ["alt"; "speed"; "heading"] →
  column msg_type field = Some i →
  int_float (item parts i) = inr z →
  (process_line now raw st).1 = inr tt
  ∧ ∃ d', adsb_aircraft (process_line now raw st).2 !! icao = Some d'
          ∧ d' !! field = Some (VInt z).
Proof.
  intros Ha Hsel Hov Hf Hcol Hz.
  rewrite (process_line_merges _ _ _ _ _ _ Ha Hov). cbn. split; [done|].
  rewrite publish_tick_aircraft. cbn. rewrite lookup_insert_eq.
  eexists. split; [done|]. by apply int_field_stored with i.
Qed.

Lemma integer_field_is_truncated_parse_witness :
  let raw := "MSG,4,1,1,ABC123,1,2024,1,1,,,,fast,271.9,,,,,,,,0" in
  (process_line (S754_zero false) raw fresh).1 = inr tt
  ∧ ∃ d', adsb_aircraft (process_line (S754_zero false) raw fresh).2 !! "ABC123"
          = Some d'
          ∧ d' !! "heading" = Some (VInt 271).
Proof.
  intros raw.
  apply (integer_field_is_truncated_parse (S754_zero false) raw fresh
           (split ","%char raw) "4" "ABC123" "heading" 13%nat 271).
  - vm_compute. reflexivity.
  - vm_compute. reflexivity.
  - vm_compute. reflexivity.
  - rewrite !elem_of_cons. auto.
  - vm_compute. reflexivity.
  - vm_compute. reflexivity.
Defined.

(** *** Invariants of the registry, the queue and the change set *)

Lemma writes_ret {A} P (a : A) : writes P (mret a).
Proof. intros d f. by left. Qed.

Lemma writes_eval {A} P (r : exn + A) : writes P (eval r).
Proof. intros d f. by left. Qed.

Lemma writes_setitem (P : string → pyval → Prop) k v :
  P k v → writes P (setitem k v).
Proof.
  intros HP d f. cbn. destruct (decide (k = f)) as [<-|Hne].
  - right. exists v. by rewrite lookup_insert_eq.
  - left. by rewrite lookup_insert_ne.
Qed.

Lemma writes_bind {A B} P (m : M A) (k : A → M B) :
  writes P m → (∀ a, writes P (k a)) → writes P (m ≫= k).
Proof.
  intros Hm Hk d f. unfold mbind, M_bind. specialize (Hm d f).
  destruct (m d) as [[e|a] d1]; cbn in *; [done|].
  destruct (Hk a d1 f) as [E|?]; [|by right]. by rewrite E.
Qed.

Lemma writes_try P body : writes P body → writes P (try_except_ValueError body).
Proof.
  intros Hb d f. unfold try_except_ValueError. specialize (Hb d f).
  by destruct (body d) as [[[]|[]] d1].
Qed.

Lemma writes_when P c body : (c = true → writes P body) → writes P (when c body).
Proof. destruct c; cbn; [auto | intros _; apply writes_ret]. Qed.

Lemma writes_set_int (P : string → pyval → Prop) k s :
  (∀ z, P k (VInt z)) → writes P (set_int k s).
Proof.
  intros HP. apply writes_when. intros _. apply writes_try.
  apply writes_bind; [apply writes_eval|]. intros z. by apply writes_setitem.
Qed.

(** The branch on the message type never writes the identifier and
    writes each field with a value of its kind. *)
Lemma apply_fields_writes msg_type parts :
  writes (λ field v, well_typed field v ∧ field ≠ "icao")
         (apply_fields msg_type parts).
Proof.
  assert (∀ l (x : string), x ∈ l ↔ In x l) as Hin
    by (intros; apply list_elem_of_In).
  unfold apply_fields. case_msg_type; try apply writes_ret.
  - apply writes_when. intros H. apply writes_setitem.
    split; [split; [apply Hin; cbn; auto | by apply truthy_nonempty] | done].
  - apply writes_bind.
    { apply writes_set_int. intros z. split; [apply Hin; cbn; auto | done]. }
    intros _. apply writes_when. intros _. apply writes_try.
    apply writes_bind; [apply writes_eval|]. intros lat.
    apply writes_bind.
    { apply writes_setitem. split; [apply Hin; cbn; auto | done]. }
    intros _. apply writes_bind; [apply writes_eval|]. intros lon.
    apply writes_setitem. split; [apply Hin; cbn; auto | done].
  - apply writes_bind; [|intros _];
      (apply writes_set_int; intros z; split; [apply Hin; cbn; auto | done]).
  - apply writes_bind.
    + apply writes_when. intros _. apply writes_when. intros H.
      apply writes_setitem.
      split; [split; [apply Hin; cbn; auto | by apply truthy_nonempty] | done].
    + intros _. apply writes_set_int. intros z.
      split; [apply Hin; cbn; auto | done].
  - apply writes_when. intros H. apply writes_setitem.
    split; [split; [apply Hin; cbn; auto | by apply truthy_nonempty] | done].
Qed.

Lemma apply_fields_record_ok msg_type parts key d :
  record_ok key d → record_ok key (apply_fields msg_type parts d).2.
Proof.
  intros [Hid Hty]. split.
  - destruct (apply_fields_writes msg_type parts d "icao")
      as [->|(v & _ & _ & Hne)]; done.
  - intros f v Hv.
    destruct (apply_fields_writes msg_type parts d f) as [E|(v' & E & Hw & _)].
    + rewrite E in Hv. eauto.
    + congruence.
Qed.

Lemma bound_record_ok icao st :
  icao ≠ EmptyString → registry_ok (adsb_aircraft st) →
  record_ok icao (bound icao st).
Proof.
  intros Hne Hreg. unfold bound.
  destruct (adsb_aircraft st !! icao) as [d|] eqn:E; cbn.
  - by apply Hreg.
  - split; [by rewrite lookup_singleton_eq|].
    intros f v [<- <-]%lookup_singleton_Some. split; [|done].
    apply list_elem_of_In. cbn. auto.
Qed.

Lemma registry_ok_insert reg key d :
  registry_ok reg → key ≠ EmptyString → upper key = key → record_ok key d →
  registry_ok (<[key := d]> reg).
Proof.
  intros Hreg Hne Hup Hd k d'. rewrite lookup_insert.
  case_decide; [|by apply Hreg]. intros [= <-]. by subst.
Qed.

(** The registry a line leaves is well formed when the one it finds is. *)
Lemma process_line_registry_ok now raw st :
  registry_ok (adsb_aircraft st) →
  registry_ok (adsb_aircraft (process_line now raw st).2).
Proof.
  intros Hreg. rewrite process_line_aircraft.
  destruct (accept (strip raw)) as [[[parts mt] icao]|] eqn:Ha; [|done].
  destruct (accept_inv _ _ _ _ Ha) as (_ & _ & Hicao & Hne).
  assert (upper icao = icao) as Hup by (rewrite Hicao; apply upper_idemp).
  pose proof (apply_fields_record_ok mt parts icao _
                (bound_record_ok icao st Hne Hreg)) as Hd.
  destruct (apply_fields mt parts (bound icao st)) as [[e|[]] d'];
    [destruct (adsb_aircraft st !! icao)|]; try done;
    by apply registry_ok_insert.
Qed.

Lemma event_of_ok key d :
  key ≠ EmptyString → upper key = key → record_ok key d → event_ok (event_of d).
Proof.
  intros Hne Hup [Hid Hty]. unfold event_of. split.
  - apply lookup_union_Some_raw. right. split; [|done].
    destruct (d !! "type") as [v|] eqn:E; [|done].
    apply Hty in E. destruct v; cbn in E; [destruct E as [E _]| |];
      apply list_elem_of_In in E; cbn in E; intuition discriminate.
  - exists key. repeat split; [done..|].
    apply lookup_union_Some_raw. by left.
Qed.

Lemma snapshots_ok reg ids : registry_ok reg → Forall event_ok (snapshots reg ids).
Proof.
  intros Hreg. induction ids as [|i ids IH]; [constructor|].
  unfold snapshots in *. cbn. destruct (reg !! i) as [d|] eqn:E; cbn; [|done].
  constructor; [|done]. destruct (Hreg i d E) as (? & ? & ?).
  by apply event_of_ok with i.
Qed.

Lemma fresh_ok : state_ok fresh.
Proof.
  split; [|split]; cbn.
  - intros k d H. by rewrite lookup_empty in H.
  - constructor.
  - done.
Qed.

Lemma process_line_state_ok now raw st :
  state_ok st → state_ok (process_line now raw st).2.
Proof.
  intros (Hreg & Hq & Hp).
  pose proof (process_line_registry_ok now raw st Hreg) as Hreg'.
  split; [done|]. revert Hreg'. 
  destruct (accept (strip raw)) as [[[parts mt] icao]|] eqn:Ha; cycle 1.
  { rewrite process_line_dropped by auto. done. }
  destruct (apply_fields mt parts (bound icao st)) as [[e|[]] d'] eqn:Hf.
  - rewrite (process_line_raised _ _ _ _ _ _ _ _ Ha Hf). cbn. intros _.
    split; [done|].
    destruct (adsb_aircraft st !! icao); [|done].
    rewrite dom_insert_L. by apply union_subseteq_r'.
  - rewrite (process_line_stored _ _ _ _ _ _ _ Ha Hf).
    unfold publish_tick. cbn [merged last_update snd].
    destruct (fge _ _); cbn; intros Hreg'.
    + split; [|apply empty_subseteq]. apply Forall_app. split; [done|].
      by apply snapshots_ok.
    + split; [done|]. rewrite dom_insert_L. apply union_subseteq. split.
      * etrans; [exact Hp | apply union_subseteq_r].
      * apply union_subseteq_l.
Qed.

(** Whatever line is processed, and whether it raises or not: every key of
    the registry stays a non-empty upper-case identifier whose record
    names it and holds values of the right kind in its fields; every
    queued event has the type aircraft and names such an identifier;
    every identifier of the change set is a key of the registry. *)
Theorem line_keeps_state_well_formed now raw st :
  state_ok st → state_ok (process_line now raw st).2.
Proof. apply process_line_state_ok. Qed.

Lemma line_keeps_state_well_formed_witness :
  state_ok (process_line PyNum.one
              "MSG,3,1,1,abc123,1,2024,1,1,,,5000,,,40.1,-73.9,,,,,,0" fresh).2.
Proof.
  apply (line_keeps_state_well_formed PyNum.one
           "MSG,3,1,1,abc123,1,2024,1,1,,,5000,,,40.1,-73.9,,,,,,0" fresh).
  exact fresh_ok.
Defined.

Lemma snapshots_length (reg : registry) ids :
  (∀ i, i ∈ ids → is_Some (reg !! i)) → length (snapshots reg ids) = length ids.
Proof.
  induction ids as [|i ids IH]; intros H; [done|].
  unfold snapshots in *. cbn.
  destruct (H i) as [d ->]; [left|]. cbn. f_equal. apply IH.
  intros j Hj. apply H. by right.
Qed.

(** When every identifier of the change set is a key of the registry, as
    the loop keeps it, a tick that is due queues as many events as the
    change set, this line's identifier included, has members: the test on
    line 134 drops none. *)
Theorem tick_queues_the_whole_change_set now raw st parts msg_type icao :
  pending_updates st ⊆ dom (adsb_aircraft st) →
  accept (strip raw) = Some (parts, msg_type, icao) →
  (process_line now raw st).1 = inr tt →
  fge (fsub now (last_update st)) one = true →
  length (adsb_queue (process_line now raw st).2)
  = (length (adsb_queue st) + size (pending_updates st ∪ {[ icao ]}))%nat.
Proof.
  intros Hp Ha Hok Hdue.
  destruct (apply_fields msg_type parts (bound icao st)) as [[e|[]] d'] eqn:Hf.
  { by rewrite (process_line_raised _ _ _ _ _ _ _ _ Ha Hf) in Hok. }
  rewrite (process_line_stored _ _ _ _ _ _ _ Ha Hf). cbn.
  unfold publish_tick. cbn [merged last_update]. rewrite Hdue. cbn.
  rewrite length_app, snapshots_length; [done|].
  intros i Hin%elem_of_elements. apply elem_of_dom. rewrite dom_insert_L.
  apply elem_of_union in Hin as [Hin|Hin];
    [apply elem_of_union_r; by apply Hp | by apply elem_of_union_l].
Qed.

Lemma tick_queues_the_whole_change_set_witness :
  let raw := "MSG,1,1,1,ABC123,1,2024,1,1,,UAL123 " in
  let st := merged "ABC123" (<["alt" := VInt 5000]> {[ "icao" := VStr "ABC123" ]})
                   (merged "4CA2D1" {[ "icao" := VStr "4CA2D1" ]} fresh) in
  length (adsb_queue (process_line PyNum.one raw st).2)
  = (length (adsb_queue st) + size (pending_updates st ∪ {[ "ABC123" ]}))%nat.
Proof.
  intros raw st.
  apply (tick_queues_the_whole_change_set PyNum.one raw st
           (split ","%char (strip raw)) "1" "ABC123").
  - cbn. rewrite !dom_insert_L. set_solver.
  - vm_compute. reflexivity.
  - vm_compute. reflexivity.
  - vm_compute. reflexivity.
Defined.

Lemma process_line_queue now raw st :
  adsb_queue st `prefix_of` adsb_queue (process_line now raw st).2
  ∧ (fge (fsub now (last_update st)) one = false →
     adsb_queue (process_line now raw st).2 = adsb_queue st
     ∧ pending_updates st ⊆ pending_updates (process_line now raw st).2).
Proof.
  destruct (accept (strip raw)) as [[[parts mt] icao]|] eqn:Ha; cycle 1.
  { rewrite process_line_dropped by auto. done. }
  destruct (apply_fields mt parts (bound icao st)) as [[e|[]] d'] eqn:Hf.
  - rewrite (process_line_raised _ _ _ _ _ _ _ _ Ha Hf). done.
  - rewrite (process_line_stored _ _ _ _ _ _ _ Ha Hf).
    unfold publish_tick. cbn [merged last_update snd].
    destruct (fge _ _); cbn.
    + split; [by apply prefix_app_r | done].
    + split; [done|]. intros _. split; [done|set_solver].
Qed.

(** A line only ever appends to the queue.  When the tick is not due the
    queue stays as it is and no identifier leaves the change set. *)
Theorem line_only_appends_to_queue now raw st :
  adsb_queue st `prefix_of` adsb_queue (process_line now raw st).2
  ∧ (fge (fsub now (last_update st)) one = false →
     adsb_queue (process_line now raw st).2 = adsb_queue st
     ∧ pending_updates st ⊆ pending_updates (process_line now raw st).2).
Proof. apply process_line_queue. Qed.

Lemma process_line_dom now raw st :
  dom (adsb_aircraft st) ⊆ dom (adsb_aircraft (process_line now raw st).2).
Proof.
  rewrite process_line_aircraft.
  destruct (accept (strip raw)) as [[[parts mt] icao]|]; [|done].
  destruct (apply_fields mt parts (bound icao st)) as [[e|[]] d'];
    [destruct (adsb_aircraft st !! icao)|]; rewrite ?dom_insert_L; set_solver.
Qed.

Lemma line_only_appends_to_queue_witness :
  let raw := "MSG,3,1,1,ABC123,1,2024,1,1,,,5000,,,40.1,-73.9,,,,,,0" in
  adsb_queue (process_line (S754_zero false) raw fresh).2 = adsb_queue fresh
  ∧ pending_updates fresh
    ⊆ pending_updates (process_line (S754_zero false) raw fresh).2.
Proof.
  intros raw.
  apply (proj2 (line_only_appends_to_queue (S754_zero false) raw fresh)).
  vm_compute. reflexivity.
Defined.

End LineFacts.

(* ===================================================================== *)
(** ** Further properties: the connection loops                          *)
(* ===================================================================== *)

Module LoopFacts.
Import PyStr PyNum Sbs Schema Reader Loop SbsFacts TextFacts LineFacts ReaderFacts.

Lemma run_step o script r : run (o :: script) r = run script (step o r).
Proof. done. Qed.

(** As long as every test of a loop reads the flag as set the thread does
    not return, whatever the sockets do and whatever lines arrive. *)
Theorem thread_runs_while_flag_is_set script r :
  at_pc r ≠ Returned → Forall (λ o, flag o = true) script →
  at_pc (run script r) ≠ Returned.
Proof.
  revert r. induction script as [|o script IH]; intros r Hr Hall; [done|].
  apply Forall_cons in Hall as [Ho Hall]. rewrite run_step. apply IH; [|done].
  intros Hret. apply returns_only_when_flag_false in Hret; congruence.
Qed.

Lemma thread_runs_while_flag_is_set_witness :
  let o := {| flag := true; connect_ok := true;
              connect_time := S754_zero false;
              rx := RecvData ("MSG,5,1,1,ABC123,1,2024,1,1,,,inf"
                              +:+ String "010" EmptyString);
              line_time := λ _, S754_zero false |} in
  let r0 := {| at_pc := AtOuter; world := fresh; buffer := EmptyString;
               trace := [] |} in
  at_pc (run [o; o; o; o] r0) ≠ Returned.
Proof.
  intros o r0. apply (thread_runs_while_flag_is_set [o; o; o; o] r0).
  - discriminate.
  - repeat constructor.
Defined.

(** A connection attempt that an exception ends (the connection fails,
    the socket reports an error, a line raises) is followed by the warning
    and the sleep of two seconds, with the flag set, and control is back
    at the test of the outer loop; the socket is not closed on that way. *)
Theorem exception_ends_attempt_with_backoff o r :
  flag o = true →
  (at_pc r = AtOuter ∧ connect_ok o = false)
  ∨ (at_pc r = AtInner ∧ rx o = RecvError)
  ∨ (at_pc r = AtInner
     ∧ ∃ data, rx o = RecvData data ∧ truthy data = true
        ∧ ∃ e st', drain (line_time o) (buffer r +:+ data) (world r) = (inl e, st')) →
  at_pc (step o r) = AtOuter
  ∧ (trace (step o r) = trace r ++ [ConnectFailed; Warning; Sleep 2]
     ∨ trace (step o r) = trace r ++ [Warning; Sleep 2]).
Proof.
  destruct r as [p w b t], o as [f c ct x lt]. cbn.
  intros -> [[-> ->]|[[-> ->]|[-> (data & -> & Hd & e & st' & Hdr)]]];
    unfold step; cbn.
  - auto.
  - auto.
  - rewrite Hd, Hdr. cbn. auto.
Qed.

Lemma exception_ends_attempt_with_backoff_witness :
  let o := {| flag := true; connect_ok := true;
              connect_time := S754_zero false;
              rx := RecvData ("MSG,5,1,1,ABC123,1,2024,1,1,,,inf"
                              +:+ String "010" EmptyString);
              line_time := λ _, S754_zero false |} in
  let r := {| at_pc := AtInner; world := fresh; buffer := EmptyString;
              trace := [Connect] |} in
  at_pc (step o r) = AtOuter
  ∧ (trace (step o r) = trace r ++ [ConnectFailed; Warning; Sleep 2]
     ∨ trace (step o r) = trace r ++ [Warning; Sleep 2]).
Proof.
  intros o r. apply (exception_ends_attempt_with_backoff o r); [reflexivity|].
  right. right. split; [reflexivity|].
  exists ("MSG,5,1,1,ABC123,1,2024,1,1,,,inf" +:+ String "010" EmptyString).
  split; [reflexivity|]. split; [reflexivity|].
  exists OverflowError, fresh. vm_compute. reflexivity.
Defined.

(** Once the flag reads as cleared the thread returns at the next test
    of the outer loop: from inside a connection it closes the socket and
    returns at the second test, making no further connection and leaving
    the registry and the queue as they are. *)
Theorem cleared_flag_ends_thread o1 o2 r :
  flag o1 = false → flag o2 = false →
  (at_pc r = AtOuter →
   run [o1] r = {| at_pc := Returned; world := world r; buffer := buffer r;
                   trace := trace r ++ [LogStopped] |})
  ∧ (at_pc r = AtInner →
     run [o1; o2] r = {| at_pc := Returned; world := world r; buffer := buffer r;
                         trace := trace r ++ [Close; LogStopped] |}).
Proof.
  destruct r as [p w b t], o1 as [f1 c1 ct1 x1 lt1], o2 as [f2 c2 ct2 x2 lt2].
  cbn. intros -> ->. split; intros ->; cbn; [done|].
  unfold log. cbn. by rewrite <- app_assoc.
Qed.

Lemma cleared_flag_ends_thread_witness :
  let o := {| flag := false; connect_ok := true;
              connect_time := S754_zero false; rx := RecvTimeout;
              line_time := λ _, S754_zero false |} in
  let r := {| at_pc := AtInner; world := fresh; buffer := "MSG,3,1";
              trace := [Connect] |} in
  run [o; o] r = {| at_pc := Returned; world := world r; buffer := buffer r;
                    trace := trace r ++ [Close; LogStopped] |}.
Proof.
  intros o r.
  apply (proj2 (cleared_flag_ends_thread o o r eq_refl eq_refl)). reflexivity.
Defined.

(** *** The buffer *)

Lemma last_split_unbroken s : unbroken (List.last (split "010"%char s) EmptyString).
Proof.
  pose proof (split_nonempty "010"%char s) as Hne.
  destruct (split_facts "010"%char s) as (_ & Hall & _).
  induction (split "010"%char s) as [|p ps IH]; [done|].
  apply Forall_cons in Hall as [Hp Hps].
  destruct ps as [|q qs]; [exact Hp|]. by apply IH.
Qed.

Lemma step_buffer_unbroken o r :
  (at_pc r = AtInner → unbroken (buffer r)) →
  at_pc (step o r) = AtInner → unbroken (buffer (step o r)).
Proof.
  destruct r as [p w b t], o as [f c ct x lt]. unfold step. cbn. intros Hb.
  destruct p; [| |done].
  - destruct f; cbn; [|done]. destruct c; cbn; [|done]. by intros _ [].
  - destruct f; cbn; [|done].
    destruct x as [data| |]; cbn; [|by auto|done].
    destruct (truthy data); cbn; [|done]. unfold drain.
    destruct (run_lines _ _ _ _) as [[e|[]] st']; cbn; [done|].
    intros _. apply last_split_unbroken.
Qed.

(** While a connection is open, control standing at the test of the inner
    loop, the buffer kept between two reads holds no line feed: a turn
    that raises nothing takes every complete line out of it. *)
Theorem buffer_holds_no_complete_line script r :
  (at_pc r = AtInner → unbroken (buffer r)) →
  at_pc (run script r) = AtInner → unbroken (buffer (run script r)).
Proof.
  revert r. induction script as [|o script IH]; intros r Hr; [done|].
  rewrite run_step. apply IH. by apply step_buffer_unbroken.
Qed.

Lemma buffer_holds_no_complete_line_witness :
  let o := {| flag := true; connect_ok := true;
              connect_time := S754_zero false;
              rx := RecvData
                      ("MSG,3,1,1,ABC123,1,2024,1,1,,,5000,,,40.1,-73.9,,,,,,0"
                       +:+ String "010" EmptyString +:+ "MSG,1,1,1,ABC");
              line_time := λ _, S754_zero false |} in
  let r0 := {| at_pc := AtOuter; world := fresh; buffer := EmptyString;
               trace := [] |} in
  unbroken (buffer (run [o; o] r0)).
Proof.
  intros o r0. apply (buffer_holds_no_complete_line [o; o] r0).
  - discriminate.
  - vm_compute. reflexivity.
Defined.

(** When no line raises, what line 67 has left in the buffer is the
    unfinished last piece. *)
Lemma remainder_last c k pieces st st' :
  pieces ≠ [] →
  run_lines c k (removelast pieces) st = (inr tt, st') →
  remainder c k pieces st = List.last pieces EmptyString.
Proof.
  revert k st. induction pieces as [|l more IH]; intros k st Hne; [done|].
  destruct more as [|l' more']; [done|].
  cbn [removelast run_lines remainder List.last].
  destruct (process_line (c k) l st) as [[e|[]] st1]; [done|].
  intros H. by apply (IH (S k) st1).
Qed.

Lemma split_app sep s t :
  split sep (s +:+ t)
  = removelast (split sep s) ++ split sep (List.last (split sep s) EmptyString +:+ t).
Proof.
  induction s as [|c s IH]; [done|].
  rewrite app_cons. cbn [split].
  pose proof (split_nonempty sep s) as Hne.
  destruct (Ascii.eqb c sep) eqn:Ec.
  - rewrite IH. by destruct (split sep s).
  - rewrite IH. destruct (split sep s) as [|p [|q qs]]; [done| |]; cbn.
    + rewrite app_cons. cbn [split]. by rewrite Ec.
    + done.
Qed.

Lemma last_app_nonempty {A} (l1 l2 : list A) d :
  l2 ≠ [] → List.last (l1 ++ l2) d = List.last l2 d.
Proof.
  intros Hne. induction l1 as [|x l1 IH]; [done|].
  cbn. rewrite IH. by destruct (l1 ++ l2) eqn:E; [destruct l1, l2|].
Qed.

Lemma run_lines_app c k l1 l2 st :
  run_lines c k (l1 ++ l2) st
  = match run_lines c k l1 st with
    | (inr _, st') => run_lines c (k + length l1) l2 st'
    | (inl e, st') => (inl e, st')
    end.
Proof.
  revert k st. induction l1 as [|l l1 IH]; intros k st; cbn.
  - by rewrite Nat.add_0_r.
  - destruct (process_line (c k) l st) as [[e|[]] st']; [done|].
    rewrite IH. by replace (k + S (length l1))%nat with (S k + length l1)%nat by lia.
Qed.

Lemma run_lines_ext c c' k k' l st :
  (∀ j, (j < length l)%nat → c (k + j)%nat = c' (k' + j)%nat) →
  run_lines c k l st = run_lines c' k' l st.
Proof.
  revert k k' st. induction l as [|x l IH]; intros k k' st H; [done|]. cbn.
  assert (c k = c' k') as ->.
  { specialize (H 0%nat). rewrite !Nat.add_0_r in H. apply H. cbn. lia. }
  destruct (process_line (c' k') x st) as [[e|[]] st']; [done|].
  apply IH. intros j Hj. specialize (H (S j)).
  rewrite !Nat.add_succ_r in H. apply H. cbn. lia.
Qed.

(** Text that arrives in two reads is processed as if it had arrived in
    one: when the first read leaves [rest] in the buffer, the second read
    does on [rest + b] what a single read does on the whole text, the
    clock reading the same values for the same lines. *)
Theorem reassembly_ignores_chunk_bounds c c1 c2 buf a b st rest st1 :
  drain c1 (buf +:+ a) st = (inr rest, st1) →
  (∀ k, (k < length (complete_lines (buf +:+ a)))%nat → c k = c1 k) →
  (∀ k, c (length (complete_lines (buf +:+ a)) + k)%nat = c2 k) →
  drain c ((buf +:+ a) +:+ b) st = drain c2 (rest +:+ b) st1.
Proof.
  unfold drain, complete_lines. intros H Hc1 Hc2.
  destruct (run_lines c1 0 _ st) as [[e|[]] st'] eqn:E1; [done|].
  injection H as <- <-.
  rewrite split_app.
  rewrite removelast_app by apply split_nonempty.
  rewrite last_app_nonempty by apply split_nonempty.
  rewrite run_lines_app.
  rewrite (run_lines_ext c c1 0 0) by (intros j Hj; by apply Hc1).
  rewrite E1.
  by rewrite (run_lines_ext c c2 _ 0) by (intros j Hj; apply Hc2).
Qed.

Lemma reassembly_ignores_chunk_bounds_witness :
  let a := "MSG,3,1,1,ABC123,1,2024,1,1,,,5000,,,40.1,-73.9,,,,,,0"
           +:+ String "010" EmptyString +:+ "MSG,1,1,1,ABC" in
  let b := "123,1,2024,1,1,,UAL123 " +:+ String "010" EmptyString in
  let c := λ _ : nat, S754_zero false in
  let st1 := merged "ABC123"
               (<["lon" := VFloat (S754_finite true 5200250194729370 (-46))]>
                 (<["lat" := VFloat (S754_finite false 5643573283048653 (-47))]>
                   (<["alt" := VInt 5000]> {[ "icao" := VStr "ABC123" ]}))) fresh in
  drain c ((EmptyString +:+ a) +:+ b) fresh = drain c ("MSG,1,1,1,ABC" +:+ b) st1.
Proof.
  intros a b c st1.
  apply (reassembly_ignores_chunk_bounds c c c EmptyString a b fresh
           "MSG,1,1,1,ABC" st1).
  - vm_compute. reflexivity.
  - reflexivity.
  - reflexivity.
Defined.

(** *** The thread as a whole *)

Lemma run_lines_state_ok c k lines st :
  state_ok st → state_ok (run_lines c k lines st).2.
Proof.
  revert k st. induction lines as [|l lines IH]; intros k st Hst; [done|]. cbn.
  pose proof (process_line_state_ok (c k) l st Hst) as H.
  destruct (process_line (c k) l st) as [[e|[]] st']; [done|]. by apply IH.
Qed.

Lemma run_lines_grows c k lines st :
  adsb_queue st `prefix_of` adsb_queue (run_lines c k lines st).2
  ∧ dom (adsb_aircraft st) ⊆ dom (adsb_aircraft (run_lines c k lines st).2).
Proof.
  revert k st. induction lines as [|l lines IH]; intros k st; [done|]. cbn.
  pose proof (proj1 (process_line_queue (c k) l st)) as Hq.
  pose proof (process_line_dom (c k) l st) as Hd.
  destruct (process_line (c k) l st) as [[e|[]] st']; [done|].
  destruct (IH (S k) st') as [Hq' Hd']. split; by etrans.
Qed.

Lemma step_state_ok o r : state_ok (world r) → state_ok (world (step o r)).
Proof.
  destruct r as [p w b t], o as [f c ct x lt]. unfold step. cbn.
  intros Hw. destruct p; [| |done].
  - destruct f; cbn; [|done]. destruct c; cbn; [|done].
    destruct Hw as (Hreg & Hq & _). split; [done|]. split; [done|].
    apply empty_subseteq.
  - destruct f; cbn; [|done]. destruct x as [data| |]; cbn; try done.
    destruct (truthy data); cbn; [|done]. unfold drain.
    pose proof (run_lines_state_ok lt 0
                  (removelast (split "010"%char (b +:+ data))) w Hw) as H.
    by destruct (run_lines _ _ _ _) as [[e|[]] st'].
Qed.

Lemma step_grows o r :
  adsb_queue (world r) `prefix_of` adsb_queue (world (step o r))
  ∧ dom (adsb_aircraft (world r)) ⊆ dom (adsb_aircraft (world (step o r))).
Proof.
  destruct r as [p w b t], o as [f c ct x lt]. unfold step. cbn.
  destruct p; [| |done].
  - destruct f; cbn; [|done]. by destruct c.
  - destruct f; cbn; [|done]. destruct x as [data| |]; cbn; try done.
    destruct (truthy data); cbn; [|done]. unfold drain.
    pose proof (run_lines_grows lt 0
                  (removelast (split "010"%char (b +:+ data))) w) as H.
    by destruct (run_lines _ _ _ _) as [[e|[]] st'].
Qed.

(** Whatever the sockets deliver and whenever the flag changes, the
    thread keeps the registry, the queue and the change set well formed:
    in particular every event it queues has the type aircraft and names a
    non-empty upper-case identifier. *)
Theorem thread_keeps_state_well_formed script r :
  state_ok (world r) → state_ok (world (run script r)).
Proof.
  revert r. induction script as [|o script IH]; intros r Hr; [done|].
  rewrite run_step. by apply IH, step_state_ok.
Qed.

Lemma thread_keeps_state_well_formed_witness :
  let o := {| flag := true; connect_ok := true;
              connect_time := S754_zero false;
              rx := RecvData
                      ("MSG,3,1,1,abc123,1,2024,1,1,,,5000,,,40.1,-73.9,,,,,,0"
                       +:+ String "010" EmptyString);
              line_time := λ _, PyNum.one |} in
  let r0 := {| at_pc := AtOuter; world := fresh; buffer := EmptyString;
               trace := [] |} in
  state_ok (world (run [o; o; o] r0)).
Proof.
  intros o r0. apply (thread_keeps_state_well_formed [o; o; o] r0).
  exact fresh_ok.
Defined.

(** The thread never takes an event out of the queue and never removes an
    aircraft from the registry. *)
Theorem thread_never_removes script r :
  adsb_queue (world r) `prefix_of` adsb_queue (world (run script r))
  ∧ dom (adsb_aircraft (world r)) ⊆ dom (adsb_aircraft (world (run script r))).
Proof.
  revert r. induction script as [|o script IH]; intros r; [done|].
  rewrite run_step. destruct (step_grows o r) as [Hq Hd].
  destruct (IH (step o r)) as [Hq' Hd']. split; by etrans.
Qed.

End LoopFacts.

(* ===================================================================== *)
(** ** Further properties: starting and stopping                         *)
(* ===================================================================== *)

Module LifecycleFacts.
Import Session Tools.

Lemma start_cases env s :
  (status (start_adsb env s).1 = "success"
   ↔ already_running env s = false ∧ decoder_fails env = false
     ∧ thread_start env = None)
  ∧ (status (start_adsb env s).1 = "success" →
     adsb_using_service (start_adsb env s).2 = true
     ∧ readers (start_adsb env s).2 = S (readers s)
     ∧ is_Some (adsb_process (start_adsb env s).2)
     ∧ adsb_aircraft (start_adsb env s).2 = adsb_aircraft s).
Proof.
  unfold already_running, decoder_fails, start_adsb.
  destruct (match adsb_process s with Some _ => old_alive env | None => false end);
    cbn; [split; [split|]; [done|by intros (? & _)|done]|].
  destruct (adsb_using_service s); cbn;
    [split; [split|]; [done|by intros (? & _)|done]|].
  destruct (dump1090_path env);
    [|split; [split|]; [done|by intros (_ & ? & _)|done]].
  destruct (popen env _);
    [split; [split|]; [done|by intros (_ & ? & _)|done]|].
  destruct (new_alive env); cbn;
    [|split; [split|]; [done|by intros (_ & ? & _)|done]].
  destruct (thread_start env); cbn.
  - split; [split|]; [done|by intros (_ & _ & ?)|done].
  - split; [done|]. intros _. repeat split. by eexists.
Qed.

Lemma start_with_flag_set env s :
  adsb_using_service s = true →
  status (start_adsb env s).1 = "already_running" ∧ (start_adsb env s).2 = s.
Proof.
  intros Hflag. unfold start_adsb. rewrite Hflag.
  by destruct (match adsb_process s with Some _ => old_alive env | None => false end).
Qed.

(** [start_adsb] answers success exactly when nothing was running, the
    decoder was found, spawned and alive at the poll, and the reader
    thread started; the flag is then set, one more reader thread runs, a
    decoder process is recorded and the registry is as it was. *)
Theorem start_succeeds_exactly_when env s :
  (status (start_adsb env s).1 = "success"
   ↔ already_running env s = false ∧ decoder_fails env = false
     ∧ thread_start env = None)
  ∧ (status (start_adsb env s).1 = "success" →
     adsb_using_service (start_adsb env s).2 = true
     ∧ readers (start_adsb env s).2 = S (readers s)
     ∧ is_Some (adsb_process (start_adsb env s).2)
     ∧ adsb_aircraft (start_adsb env s).2 = adsb_aircraft s).
Proof. exact (start_cases env s). Qed.

Lemma start_succeeds_exactly_when_witness :
  let env := {| old_alive := false; which := λ _, Some "/usr/bin/dump1090";
                popen := λ _, inr (Process 7); new_alive := true;
                thread_start := None; gain := "40"; device := "0" |} in
  let idle := {| adsb_process := None; adsb_using_service := false;
                 adsb_aircraft := ∅; readers := 0 |} in
  adsb_using_service (start_adsb env idle).2 = true
  ∧ readers (start_adsb env idle).2 = S (readers idle)
  ∧ is_Some (adsb_process (start_adsb env idle).2)
  ∧ adsb_aircraft (start_adsb env idle).2 = adsb_aircraft idle.
Proof.
  intros env idle.
  apply (proj2 (start_succeeds_exactly_when env idle)). reflexivity.
Defined.

(** After a start that answered success a second start answers
    [already_running] and changes nothing, whatever has become of the
    decoder process in between. *)
Theorem second_start_is_refused env1 env2 s :
  status (start_adsb env1 s).1 = "success" →
  status (start_adsb env2 (start_adsb env1 s).2).1 = "already_running"
  ∧ (start_adsb env2 (start_adsb env1 s).2).2 = (start_adsb env1 s).2.
Proof.
  intros Hs. apply start_with_flag_set.
  by apply (proj2 (start_cases env1 s)).
Qed.

Lemma second_start_is_refused_witness :
  let env := {| old_alive := false; which := λ _, Some "/usr/bin/dump1090";
                popen := λ _, inr (Process 7); new_alive := true;
                thread_start := None; gain := "40"; device := "0" |} in
  let idle := {| adsb_process := None; adsb_using_service := false;
                 adsb_aircraft := ∅; readers := 0 |} in
  status (start_adsb env (start_adsb env idle).2).1 = "already_running"
  ∧ (start_adsb env (start_adsb env idle).2).2 = (start_adsb env idle).2.
Proof.
  intros env idle. apply (second_start_is_refused env env idle). reflexivity.
Defined.

(** After [stop_adsb] a start is never refused as already running: it
    answers success when the decoder can be spawned, stays alive and the
    reader thread starts, and error otherwise. *)
Theorem start_after_stop_is_not_refused wait_expired env s :
  let s' := (stop_adsb wait_expired s).2 in
  already_running env s' = false
  ∧ status (start_adsb env s').1
    = (if decoder_fails env then "error"
       else match thread_start env with Some _ => "error" | None => "success" end).
Proof.
  cbn. split; [done|]. unfold decoder_fails, start_adsb. cbn.
  destruct (dump1090_path env); [|done].
  destruct (popen env _); [done|].
  destruct (new_alive env); cbn; [|done].
  by destruct (thread_start env).
Qed.

(** When the reader thread cannot be started [start_adsb] answers error
    but has already set the flag and recorded the decoder process: no
    reader thread runs, and every later start is refused as already
    running until [stop_adsb] is called. *)
Theorem failed_thread_start_leaves_flag_set env s e :
  already_running env s = false → decoder_fails env = false →
  thread_start env = Some e →
  (start_adsb env s).1 = Response "error" (Some e)
  ∧ adsb_using_service (start_adsb env s).2 = true
  ∧ readers (start_adsb env s).2 = readers s
  ∧ ∀ env', status (start_adsb env' (start_adsb env s).2).1 = "already_running".
Proof.
  unfold already_running, decoder_fails. intros Hrun Hdec Hthr.
  apply orb_false_elim in Hrun as [Hold Hflag].
  assert (∃ p, start_adsb env s
               = (Response "error" (Some e),
                  {| adsb_process := Some p; adsb_using_service := true;
                     adsb_aircraft := adsb_aircraft s; readers := readers s |}))
    as [p Hst].
  { unfold start_adsb. rewrite Hold, Hflag.
    destruct (dump1090_path env); [|done].
    destruct (popen env _) as [|p]; [done|].
    destruct (new_alive env); [|done]. cbn. rewrite Hthr. by exists p. }
  rewrite Hst. cbn. repeat split. intros env'. by apply start_with_flag_set.
Qed.

Lemma failed_thread_start_leaves_flag_set_witness :
  let env := {| old_alive := false; which := λ _, Some "/usr/bin/dump1090";
                popen := λ _, inr (Process 7); new_alive := true;
                thread_start := Some "can't start new thread";
                gain := "40"; device := "0" |} in
  let idle := {| adsb_process := None; adsb_using_service := false;
                 adsb_aircraft := ∅; readers := 0 |} in
  (start_adsb env idle).1 = Response "error" (Some "can't start new thread")
  ∧ adsb_using_service (start_adsb env idle).2 = true
  ∧ readers (start_adsb env idle).2 = readers idle
  ∧ ∀ env', status (start_adsb env' (start_adsb env idle).2).1 = "already_running".
Proof.
  intros env idle.
  apply (failed_thread_start_leaves_flag_set env idle "can't start new thread");
    reflexivity.
Defined.

(** The probe [check_adsb_tools] and [start_adsb] look for the decoder
    under the same three names: the probe reports it exactly when
    [start_adsb] finds a path, and when the probe reports none a start
    with nothing running answers that the decoder was not found and
    changes nothing. *)
Theorem tools_probe_agrees_with_start env s :
  (dump1090 (check_adsb_tools (which env)) = true ↔ is_Some (dump1090_path env))
  ∧ (dump1090 (check_adsb_tools (which env)) = false →
     already_running env s = false →
     start_adsb env s = (Response "error" (Some "dump1090 not found."), s)).
Proof.
  unfold check_adsb_tools, available, dump1090_path, or_else, already_running,
    start_adsb, dump1090_path, or_else. cbn.
  destruct (which env "dump1090"), (which env "dump1090-mutability"),
    (which env "dump1090-fa"); cbn;
    (split; [split; [by eauto | by intros [? ?]] |]); try done.
  intros _ [-> ->]%orb_false_elim. done.
Qed.

Lemma tools_probe_agrees_with_start_witness :
  let env := {| old_alive := false; which := λ _, None;
                popen := λ _, inl "spawn"; new_alive := false;
                thread_start := None; gain := "40"; device := "0" |} in
  let idle := {| adsb_process := None; adsb_using_service := false;
                 adsb_aircraft := ∅; readers := 0 |} in
  start_adsb env idle = (Response "error" (Some "dump1090 not found."), idle).
Proof.
  intros env idle.
  apply (proj2 (tools_probe_agrees_with_start env idle)); reflexivity.
Defined.

End LifecycleFacts.

(* ===================================================================== *)
(** ** Further properties: the shared queue                              *)
(* ===================================================================== *)

Module DeliveryFacts.
Import Fanout Frames FanoutFacts.

Lemma received_sublist i (l : list (nat * frame)) :
  messages (omap (λ p, if decide (p.1 = i) then Some p.2 else None) l)
  `sublist_of` omap (λ p, match p.2 with Data m => Some m | Keepalive => None end) l.
Proof.
  induction l as [|[j f] l IH]; [done|]. cbn.
  destruct (decide (j = i)); cbn.
  - destruct f; cbn; [by apply sublist_skip | done].
  - destruct f; cbn; [by apply sublist_cons | done].
Qed.

(** Whatever the interleaving of the calls, the messages one subscriber
    is sent are a selection, in the order of publication, of the messages
    put: none comes out of order and none is made up. *)
Theorem subscriber_sees_messages_in_order calls i :
  messages (received i (run calls (Channel [] []))) `sublist_of` puts calls.
Proof.
  pose proof (run_conserves calls (Channel [] [])) as Hc. cbn in Hc.
  rewrite <- Hc. etrans; [apply received_sublist|].
  apply sublist_inserts_r. done.
Qed.

Lemma polls_drain k i ch :
  queue (run (replicate k (Get i)) ch) = drop k (queue ch)
  ∧ yielded (run (replicate k (Get i)) ch)
    = yielded ch ++ ((λ m, (i, Data m)) <$> take k (queue ch))
      ++ replicate (k - length (queue ch)) (i, Keepalive).
Proof.
  revert ch. induction k as [|k IH]; intros ch.
  - cbn. by rewrite drop_0, app_nil_r.
  - cbn [replicate]. rewrite run_cons. destruct (IH (serve (Get i) ch)) as [-> ->].
    cbn. destruct (queue ch) as [|m q]; cbn.
    + rewrite drop_nil, take_nil. cbn. split; [done|].
      by rewrite <- app_assoc, Nat.sub_0_r.
    + split; [done|]. by rewrite <- app_assoc.
Qed.

(** A subscriber polling alone, with nothing put meanwhile, is sent the
    queued messages oldest first, one for each poll, and a keepalive for
    each poll made after the queue has run empty. *)
Theorem polls_empty_the_queue_in_order k i q :
  let ch := run (replicate k (Get i)) (Channel q []) in
  queue ch = drop k q
  ∧ received i ch = (Data <$> take k q) ++ replicate (k - length q) Keepalive.
Proof.
  intros ch. destruct (polls_drain k i (Channel q [])) as [Hq Hy].
  split; [done|]. unfold received, ch. rewrite Hy. cbn.
  rewrite omap_app. f_equal.
  - induction (take k q) as [|m l IH]; [done|]. cbn.
    rewrite decide_True by done. cbn. by rewrite IH.
  - induction (k - length q)%nat as [|n IH]; [done|]. cbn.
    rewrite decide_True by done. cbn. by rewrite IH.
Qed.

End DeliveryFacts.
